(** * GAM configuration manager: the extraction and remediation endpoints

    A shallow embedding of
      - [backend/app/schemas/remediation.py]           (request / response schemas),
      - [backend/app/api/v1/endpoints/remediation.py]  ([execute_remediation]),
      - [backend/app/api/v1/endpoints/gam.py]          ([extract_gam_config]),
    followed by the properties of the two handlers.

    The handlers are written in a small state-and-exception monad.  The
    state holds the relational store (the committed rows), the state of the
    external Google Workspace domain the GAM tool talks to, and the trace of
    calls made to the GAM service.  The GAM service, the security analyzer
    and the enum of configuration types are collaborators whose code lives
    in other modules of the application; they are taken as an interface
    ([Env]) and every theorem holds for all of its implementations. *)

From stdpp Require Import base option list gmap strings numbers pretty.
From Stdlib Require Import ZArith Lia.

Set Warnings "-register-all".
Local Open Scope string_scope.
Local Open Scope Z_scope.

(** ** Python values

    The JSON-like values that travel through [Dict[str, Any]] fields and
    JSON columns.  Floats are left out. *)

Inductive pyval : Type :=
| PNone
| PBool (b : bool)
| PInt (n : Z)
| PStr (s : string)
| PList (xs : list pyval)
| PDict (kvs : list (string * pyval)).

(** A [dict] keeps insertion order; keys are looked up first match. *)
Definition dict : Type := list (string * pyval).

(** [bool(v)]: the truth value Python gives to [v]. *)
Definition py_truthy (v : pyval) : bool :=
  match v with
  | PNone => false
  | PBool b => b
  | PInt n => negb (n =? 0)
  | PStr s => negb (String.eqb s "")
  | PList xs => match xs with [] => false | _ => true end
  | PDict kvs => match kvs with [] => false | _ => true end
  end.

(** [d[k]] as an option: [None] stands for [KeyError]. *)
Fixpoint dict_lookup {A : Type} (k : string) (d : list (string * A)) : option A :=
  match d with
  | [] => None
  | (k', v) :: d' => if String.eqb k k' then Some v else dict_lookup k d'
  end.

(** [k in d]. *)
Definition dict_contains {A : Type} (k : string) (d : list (string * A)) : bool :=
  match dict_lookup k d with Some _ => true | None => false end.

(** [d.get(k)]: the value, or Python's [None] when the key is absent. *)
Definition dict_get (k : string) (d : dict) : pyval :=
  match dict_lookup k d with Some v => v | None => PNone end.

(** [d.keys()] and [d.values()], in insertion order. *)
Definition dict_keys {A : Type} (d : list (string * A)) : list string := d.*1.
Definition dict_values {A : Type} (d : list (string * A)) : list A := d.*2.

(** [a == b] on Python values: [True == 1] and [False == 0] hold, lists
    compare element by element, dicts compare as mappings (same number of
    keys, and every key of the left one bound to an equal value on the
    right), values of unrelated types are different. *)
Fixpoint py_eq (a b : pyval) : bool :=
  match a, b with
  | PNone, PNone => true
  | PBool x, PBool y => Bool.eqb x y
  | PBool x, PInt n => (if x then 1 else 0) =? n
  | PInt n, PBool y => n =? (if y then 1 else 0)
  | PInt n, PInt m => n =? m
  | PStr s, PStr t => String.eqb s t
  | PList xs, PList ys =>
      (fix go (xs ys : list pyval) {struct xs} : bool :=
         match xs, ys with
         | [], [] => true
         | x :: xs', y :: ys' => py_eq x y && go xs' ys'
         | _, _ => false
         end) xs ys
  | PDict kvs, PDict kvs' =>
      Nat.eqb (length kvs) (length kvs') &&
      (fix all (kvs : list (string * pyval)) : bool :=
         match kvs with
         | [] => true
         | (k, v) :: rest =>
             match dict_lookup k kvs' with
             | Some v' => py_eq v v'
             | None => false
             end && all rest
         end) kvs
  | _, _ => false
  end.

(** [', '.join(xs)]. *)
Fixpoint str_join (sep : string) (xs : list string) : string :=
  match xs with
  | [] => ""
  | [x] => x
  | x :: rest => x +:+ sep +:+ str_join sep rest
  end.

(** [str(o)] for an optional string, as an f-string prints it. *)
Definition str_of_optional (o : option string) : string :=
  match o with Some s => s | None => "None" end.

(** ** Exceptions and the handler monad *)

(** What a handler can raise: FastAPI's [HTTPException], which becomes a
    response with that status code, and [AttributeError], which nothing
    catches. *)
Inductive PyExc : Type :=
| HTTPException (status_code : Z) (detail : string)
| AttributeError (msg : string).

Inductive Outcome (A : Type) : Type :=
| Return (a : A)
| Raise (e : PyExc).
Arguments Return {A} a.
Arguments Raise {A} e.

(** ** Collaborators *)

(** Modelled from the spec: the severities of a finding, "enumerated
    critical, high, medium, low, info" (the column is declared in
    [app.db.models]). *)
Inductive Severity : Type := critical | high | medium | low | info.

(** Modelled from the spec: [app.db.models.ConfigType], an enum with string
    values.  The handlers name three of its members; whatever other members
    it has, they are members of [CT]. *)
Class ConfigTypeEnum (CT : Type) : Type := {
  USER : CT;
  OAUTH_TOKENS : CT;
  OTHER : CT;
  ct_value : CT → string
}.

(** The dict [GAMService._run_gam_command] returns: [result["success"]],
    [result.get("data")], [result.get("error")].  Output and error are text,
    as [RemediationResponse.gam_output] declares them. *)
Record GamResult : Type := {
  gr_success : bool;
  gr_data : option string;
  gr_error : option string
}.

(** The dict [GAMService.extract_all_configs] returns: [result["success"]],
    [result["data"]] (category value to payload) and [result.get("errors")],
    whose key may be absent. *)
Record ExtractResult (Err : Type) : Type := {
  er_success : bool;
  er_data : dict;
  er_errors : option (list Err)
}.
Arguments er_success {Err} _.
Arguments er_data {Err} _.
Arguments er_errors {Err} _.

(** A finding as [SecurityService.analyze_configuration] produces it: the
    keys the handlers subscript are fields, the keys they read with [.get]
    are optional. *)
Record FindingDraft : Type := {
  fd_severity : Severity;
  fd_category : option string;
  fd_title : string;
  fd_description : string;
  fd_recommendation : string;
  fd_affected_settings : option pyval;
  fd_remediation_steps : option pyval;
  fd_remediation_actions : option pyval
}.

(** [f.get(key)] on an optional key of a draft. *)
Definition draft_get (o : option pyval) : pyval :=
  match o with Some v => v | None => PNone end.

(** ** Rows of the store *)

Record ExtractionErrors (Err : Type) : Type := {
  xe_errors : list Err;
  xe_failed_types : list string
}.
Arguments xe_errors {Err} _.
Arguments xe_failed_types {Err} _.

(** A [Configuration] row; its [id] is its key in the table. *)
Record Configuration (CT Err : Type) : Type := {
  cfg_name : option string;
  cfg_description : string;
  cfg_config_type : CT;
  cfg_config_data : dict;
  cfg_is_template : bool;
  cfg_extraction_errors : option (ExtractionErrors Err)
}.
Arguments cfg_name {CT Err} _.
Arguments cfg_description {CT Err} _.
Arguments cfg_config_type {CT Err} _.
Arguments cfg_config_data {CT Err} _.
Arguments cfg_is_template {CT Err} _.
Arguments cfg_extraction_errors {CT Err} _.

(** A [SecurityAnalysis] row (a persisted finding). *)
Record SecurityAnalysis : Type := {
  sa_configuration_id : Z;
  sa_severity : Severity;
  sa_category : option string;
  sa_title : string;
  sa_description : string;
  sa_recommendation : string;
  sa_affected_settings : pyval;
  sa_remediation_steps : pyval;
  sa_remediation_actions : pyval
}.

(** The committed rows, each table keyed by primary key. *)
Record Db (CT Err : Type) : Type := {
  configurations : gmap Z (Configuration CT Err);
  security_analyses : gmap Z SecurityAnalysis
}.
Arguments configurations {CT Err} _.
Arguments security_analyses {CT Err} _.

(** The id the store gives to the next row of a table: one more than the
    largest id in use. *)
Definition next_id {A : Type} (table : gmap Z A) : Z :=
  1 + foldr Z.max 0 (map_to_list table).*1.

(** ** Calls to the GAM service *)

Inductive Event (CT : Type) : Type :=
| EvRunGam (args : list pyval)
| EvExtractAll (config_types : list CT).
Arguments EvRunGam {CT} args.
Arguments EvExtractAll {CT} config_types.

(** The services the handlers construct and call.  A call takes the state
    of the external domain and returns the state it leaves.
    [get_security_score] is given the severities of the findings it is
    passed, [str_errors] is [str()] of the list of error records. *)
Record Env (CT W Err : Type) : Type := {
  run_gam_command : list pyval → W → GamResult * W;
  extract_all_configs : list CT → W → ExtractResult Err * W;
  analyze_configuration : dict → CT → list FindingDraft;
  get_security_score : list Severity → Z;
  str_errors : list Err → string
}.
Arguments run_gam_command {CT W Err} _ _ _.
Arguments extract_all_configs {CT W Err} _ _ _.
Arguments analyze_configuration {CT W Err} _ _ _.
Arguments get_security_score {CT W Err} _ _.
Arguments str_errors {CT W Err} _ _.

(** What a request runs against: the store, the external domain and the
    calls made so far. *)
Record HState (CT W Err : Type) : Type := {
  st_db : Db CT Err;
  st_world : W;
  st_trace : list (Event CT)
}.
Arguments st_db {CT W Err} _.
Arguments st_world {CT W Err} _.
Arguments st_trace {CT W Err} _.

Definition Handler (CT W Err A : Type) : Type :=
  HState CT W Err → Outcome A * HState CT W Err.

#[global] Instance handler_ret {CT W Err} : MRet (Handler CT W Err) :=
  λ A a st, (Return a, st).

#[global] Instance handler_bind {CT W Err} : MBind (Handler CT W Err) :=
  λ A B f m st,
    match m st with
    | (Return a, st') => f a st'
    | (Raise e, st') => (Raise e, st')
    end.

Definition raise {CT W Err A} (e : PyExc) : Handler CT W Err A :=
  λ st, (Raise e, st).

(** ** Schemas *)

(** [schemas/remediation.py], [RemediationRequest]; [parameters] defaults
    to [None], [auto_rescan] to [True]. *)
Record RemediationRequest : Type := {
  finding_id : Z;
  action_id : string;
  parameters : option dict;
  auto_rescan : bool
}.

(** [schemas/remediation.py], [RemediationResponse]. *)
Record RemediationResponse : Type := {
  success : bool;
  message : string;
  resp_finding_id : Z;
  action_executed : string;
  gam_output : option string;
  new_configuration_id : option Z;
  security_score_before : option Z;
  security_score_after : option Z;
  finding_resolved : bool
}.

(** [app.schemas.config.GAMExtractRequest], by the fields the extraction
    handler reads. *)
Record GAMExtractRequest (CT : Type) : Type := {
  config_types : list CT;
  save_as_template : bool;
  template_name : option string
}.
Arguments config_types {CT} _.
Arguments save_as_template {CT} _.
Arguments template_name {CT} _.

(** [app.schemas.config.GAMExtractResponse], by the fields the extraction
    handler fills. *)
Record GAMExtractResponse (CT Err : Type) : Type := {
  x_success : bool;
  x_message : string;
  x_configuration_id : Z;
  extracted_types : list CT;
  total_items : Z;
  x_errors : option (list Err);
  failed_types : option (list CT)
}.
Arguments x_success {CT Err} _.
Arguments x_message {CT Err} _.
Arguments x_configuration_id {CT Err} _.
Arguments extracted_types {CT Err} _.
Arguments total_items {CT Err} _.
Arguments x_errors {CT Err} _.
Arguments failed_types {CT Err} _.

(** ** The handlers *)

Section Handlers.
Context {CT W Err : Type} `{ConfigTypeEnum CT}.
Variable env : Env CT W Err.

Local Abbreviation M := (Handler CT W Err).

(** *** Store operations *)

(** [select(SecurityAnalysis).where(id == i)], [scalar_one_or_none()]. *)
Definition db_get_finding (i : Z) : M (option SecurityAnalysis) :=
  λ st, (Return (security_analyses (st_db st) !! i), st).

(** [select(Configuration).where(id == i)], [scalar_one_or_none()]. *)
Definition db_get_configuration (i : Z) : M (option (Configuration CT Err)) :=
  λ st, (Return (configurations (st_db st) !! i), st).

(** [select(SecurityAnalysis).where(configuration_id == c)], [scalars().all()]. *)
Definition db_list_findings (c : Z) : M (list SecurityAnalysis) :=
  λ st, (Return (filter (λ a, sa_configuration_id a = c)
                        (map_to_list (security_analyses (st_db st))).*2), st).

(** [db.add(row)], [db.commit()], [db.refresh(row)] for one configuration:
    the row is stored under a fresh id, which is returned. *)
Definition db_add_configuration (c : Configuration CT Err) : M Z :=
  λ st,
    let i := next_id (configurations (st_db st)) in
    (Return i,
     {| st_db := {| configurations := <[i := c]> (configurations (st_db st));
                    security_analyses := security_analyses (st_db st) |};
        st_world := st_world st;
        st_trace := st_trace st |}).

(** [db.add(row)] for each finding in turn, then one [db.commit()]. *)
Definition insert_analyses (rows : list SecurityAnalysis)
    (table : gmap Z SecurityAnalysis) : gmap Z SecurityAnalysis :=
  foldl (λ t row, <[next_id t := row]> t) table rows.

Definition db_add_findings (rows : list SecurityAnalysis) : M () :=
  λ st,
    (Return (),
     {| st_db := {| configurations := configurations (st_db st);
                    security_analyses :=
                      insert_analyses rows (security_analyses (st_db st)) |};
        st_world := st_world st;
        st_trace := st_trace st |}).

(** *** Service calls *)

(** [await gam_service._run_gam_command(args)]. *)
Definition run_gam (args : list pyval) : M GamResult :=
  λ st,
    let '(r, w) := run_gam_command env args (st_world st) in
    (Return r,
     {| st_db := st_db st; st_world := w;
        st_trace := st_trace st ++ [EvRunGam args] |}).

(** [await gam_service.extract_all_configs(types)]. *)
Definition extract_all (types : list CT) : M (ExtractResult Err) :=
  λ st,
    let '(r, w) := extract_all_configs env types (st_world st) in
    (Return r,
     {| st_db := st_db st; st_world := w;
        st_trace := st_trace st ++ [EvExtractAll types] |}).

(** [request.parameters.get(key)]: an attribute access on [None] when the
    request carries no parameters. *)
Definition parameters_get (request : RemediationRequest) (key : string) : M pyval :=
  match parameters request with
  | Some d => mret (dict_get key d)
  | None => raise (AttributeError "'NoneType' object has no attribute 'get'")
  end.

(** [xs[0] if len(xs) == 1 else ConfigType.OTHER]. *)
Definition single_or_other (xs : list CT) : CT :=
  match xs with
  | [x] => x
  | _ => OTHER
  end.

(** *** [remediation.py]: [execute_remediation] *)

(** Lines 52-72: the GAM command for the action. *)
Definition dispatch_action (request : RemediationRequest) : M GamResult :=
  if String.eqb (action_id request) "enforce_2fa" then
    user_email ← parameters_get request "user_email";
    if negb (py_truthy user_email) then
      raise (HTTPException 400 "user_email parameter required")
    else
      run_gam [PStr "update"; PStr "user"; user_email;
               PStr "enforcein2sv"; PStr "true"]
  else if String.eqb (action_id request) "revoke_oauth_token" then
    user ← parameters_get request "user";
    client_id ← parameters_get request "client_id";
    if negb (py_truthy user) || negb (py_truthy client_id) then
      raise (HTTPException 400 "user and client_id parameters required")
    else
      run_gam [PStr "user"; user; PStr "revoke"; PStr "token"; client_id]
  else
    raise (HTTPException 400 ("Unknown action_id: " +:+ action_id request)).

(** Lines 93-96: the configuration types to extract again. *)
Definition config_types_to_extract (request : RemediationRequest) : list CT :=
  if String.eqb (action_id request) "enforce_2fa" then [USER]
  else if String.eqb (action_id request) "revoke_oauth_token" then [OAUTH_TOKENS]
  else [].

(** Lines 124-133: the row stored for a new finding. *)
Definition rescan_row (config_id : Z) (f : FindingDraft) : SecurityAnalysis :=
  {| sa_configuration_id := config_id;
     sa_severity := fd_severity f;
     sa_category := fd_category f;
     sa_title := fd_title f;
     sa_description := fd_description f;
     sa_recommendation := fd_recommendation f;
     sa_affected_settings := draft_get (fd_affected_settings f);
     sa_remediation_steps := draft_get (fd_remediation_steps f);
     sa_remediation_actions := PNone |}.

(** Lines 143-144: a new finding that matches the original one. *)
Definition same_finding (finding : SecurityAnalysis) (f : FindingDraft) : bool :=
  String.eqb (fd_title f) (sa_title finding) &&
  py_eq (draft_get (fd_affected_settings f)) (sa_affected_settings finding).

(** Lines 104-110: the configuration stored after a successful rescan. *)
Definition post_remediation_config (config : Configuration CT Err)
    (finding : SecurityAnalysis) (types : list CT) (data : dict)
    : Configuration CT Err :=
  {| cfg_name := Some ("Post-Remediation: " +:+ str_of_optional (cfg_name config));
     cfg_description := "Re-extracted after fixing: " +:+ sa_title finding;
     cfg_config_type := single_or_other types;
     cfg_config_data := data;
     cfg_is_template := false;
     cfg_extraction_errors := None |}.

(** Lines 85-146: the rescan; returns [new_config_id], [score_after] and
    [finding_resolved]. *)
Definition rescan (request : RemediationRequest) (config : Configuration CT Err)
    (finding : SecurityAnalysis) : M (option Z * option Z * bool) :=
  if auto_rescan request then
    let types := config_types_to_extract request in
    match types with
    | [] => mret (None, None, false)
    | _ :: _ =>
      extract_result ← extract_all types;
      if er_success extract_result then
        let new_config :=
          post_remediation_config config finding types (er_data extract_result) in
        new_config_id ← db_add_configuration new_config;
        let new_findings :=
          analyze_configuration env (cfg_config_data new_config)
                                    (cfg_config_type new_config) in
        db_add_findings (rescan_row new_config_id <$> new_findings);;
        let score_after := get_security_score env (fd_severity <$> new_findings) in
        let finding_resolved := negb (existsb (same_finding finding) new_findings) in
        mret (Some new_config_id, Some score_after, finding_resolved)
      else mret (None, None, false)
    end
  else mret (None, None, false).

Definition execute_remediation (request : RemediationRequest) : M RemediationResponse :=
  finding ← db_get_finding (finding_id request);
  match finding with
  | None => raise (HTTPException 404 "Security finding not found")
  | Some finding =>
    config ← db_get_configuration (sa_configuration_id finding);
    match config with
    | None => raise (HTTPException 404 "Configuration not found")
    | Some config =>
      analyses_before ← db_list_findings (sa_configuration_id finding);
      let score_before := get_security_score env (sa_severity <$> analyses_before) in
      gam_result ← dispatch_action request;
      if negb (gr_success gam_result) then
        mret {| success := false;
                message := "Remediation failed: " +:+ str_of_optional (gr_error gam_result);
                resp_finding_id := finding_id request;
                action_executed := action_id request;
                gam_output := gr_error gam_result;
                new_configuration_id := None;
                security_score_before := None;
                security_score_after := None;
                finding_resolved := false |}
      else
        verification ← rescan request config finding;
        let '(new_config_id, score_after, resolved) :=
          (verification : option Z * option Z * bool) in
        mret {| success := true;
                message := "Remediation executed successfully" +:+
                           (if resolved then " and verified" else "");
                resp_finding_id := finding_id request;
                action_executed := action_id request;
                gam_output := gr_data gam_result;
                new_configuration_id := new_config_id;
                security_score_before := Some score_before;
                security_score_after := score_after;
                finding_resolved := resolved |}
    end
  end.

(** *** [gam.py]: [extract_gam_config] *)

(** Line 35: [len(data) if isinstance(data, list) else 1]. *)
Definition item_size (data : pyval) : Z :=
  match data with
  | PList xs => Z.of_nat (length xs)
  | _ => 1
  end.

(** Lines 34-37: [sum(... for data in result["data"].values())]. *)
Definition count_items (data : dict) : Z :=
  foldl Z.add 0 (item_size <$> dict_values data).

(** Line 40: [[t for t in request.config_types if t.value not in data]]. *)
Definition failed_config_types (types : list CT) (data : dict) : list CT :=
  List.filter (λ t, negb (dict_contains (ct_value t) data)) types.

(** [xs if xs else None]. *)
Definition none_if_empty {A : Type} (xs : list A) : option (list A) :=
  match xs with
  | [] => None
  | _ :: _ => Some xs
  end.

(** Lines 67-77: the row stored for a finding of the extracted data. *)
Definition extract_row (config_id : Z) (f : FindingDraft) : SecurityAnalysis :=
  {| sa_configuration_id := config_id;
     sa_severity := fd_severity f;
     sa_category := fd_category f;
     sa_title := fd_title f;
     sa_description := fd_description f;
     sa_recommendation := fd_recommendation f;
     sa_affected_settings := draft_get (fd_affected_settings f);
     sa_remediation_steps := draft_get (fd_remediation_steps f);
     sa_remediation_actions := draft_get (fd_remediation_actions f) |}.

(** Lines 43-52: the configuration stored for an extraction. *)
Definition extracted_config (request : GAMExtractRequest CT)
    (data : dict) (errors : list Err) (failed : list CT) : Configuration CT Err :=
  {| cfg_name :=
       if save_as_template request then template_name request
       else Some ("GAM Extract " +:+ str_join ", " (dict_keys data));
     cfg_description :=
       "Extracted from GAM - Types: " +:+
       str_join ", " (ct_value <$> config_types request);
     cfg_config_type := single_or_other (config_types request);
     cfg_config_data := data;
     cfg_is_template := save_as_template request;
     cfg_extraction_errors :=
       match errors with
       | [] => None
       | _ :: _ => Some {| xe_errors := errors;
                           xe_failed_types := ct_value <$> failed |}
       end |}.

(** Lines 82-90: the response of a stored extraction. *)
Definition extract_response (request : GAMExtractRequest CT)
    (errors : list Err) (total : Z) (failed : list CT) (config_id : Z)
    : GAMExtractResponse CT Err :=
  {| x_success := true;
     x_message :=
       match errors with
       | [] => "Configuration extracted successfully"
       | _ :: _ => "Partially extracted (" +:+ pretty (length errors) +:+ " errors)"
       end;
     x_configuration_id := config_id;
     extracted_types := config_types request;
     total_items := total;
     x_errors := none_if_empty errors;
     failed_types := none_if_empty failed |}.

Definition extract_gam_config (request : GAMExtractRequest CT)
    : M (GAMExtractResponse CT Err) :=
  result ← extract_all (config_types request);
  let errors := default [] (er_errors result) in
  if negb (er_success result) && negb (py_truthy (PDict (er_data result))) then
    raise (HTTPException 500
             ("Failed to extract configurations: " +:+ str_errors env errors))
  else
    let total := count_items (er_data result) in
    let failed := failed_config_types (config_types request) (er_data result) in
    let db_config := extracted_config request (er_data result) errors failed in
    config_id ← db_add_configuration db_config;
    let findings :=
      analyze_configuration env (cfg_config_data db_config)
                                (cfg_config_type db_config) in
    db_add_findings (extract_row config_id <$> findings);;
    mret (extract_response request errors total failed config_id).

End Handlers.

(** ** Vocabulary of the specification *)

(** The action catalog: the two known action identifiers. *)
Definition known_action (a : string) : Prop :=
  a = "enforce_2fa" ∨ a = "revoke_oauth_token".

(** Step 1 of the workflow succeeds: the finding exists, and so does the
    configuration that owns it. *)
Definition passes_lookup {CT Err : Type} (db : Db CT Err) (request : RemediationRequest)
    (finding : SecurityAnalysis) (config : Configuration CT Err) : Prop :=
  security_analyses db !! finding_id request = Some finding ∧
  configurations db !! sa_configuration_id finding = Some config.

(** Step 3 of the workflow succeeds: the action is in the catalog and each
    parameter it requires is present with a value Python counts as true;
    [args] is the command the action expands to. *)
Inductive passes_validation : RemediationRequest → list pyval → Prop :=
| valid_enforce_2fa request d user_email :
    action_id request = "enforce_2fa" →
    parameters request = Some d →
    dict_lookup "user_email" d = Some user_email →
    py_truthy user_email = true →
    passes_validation request
      [PStr "update"; PStr "user"; user_email; PStr "enforcein2sv"; PStr "true"]
| valid_revoke_oauth_token request d user client_id :
    action_id request = "revoke_oauth_token" →
    parameters request = Some d →
    dict_lookup "user" d = Some user →
    py_truthy user = true →
    dict_lookup "client_id" d = Some client_id →
    py_truthy client_id = true →
    passes_validation request
      [PStr "user"; user; PStr "revoke"; PStr "token"; client_id].

(** A required parameter of the action is missing from the mapping [d]. *)
Definition lacks_required_parameter (a : string) (d : dict) : Prop :=
  (a = "enforce_2fa" ∧ dict_lookup "user_email" d = None) ∨
  (a = "revoke_oauth_token" ∧
   (dict_lookup "user" d = None ∨ dict_lookup "client_id" d = None)).

(** The detail of the 400 response for a missing parameter of action [a]. *)
Definition missing_parameter_detail (a : string) : string :=
  if String.eqb a "enforce_2fa" then "user_email parameter required"
  else "user and client_id parameters required".

(** The score the handler computes at lines 39-44 of [remediation.py], from
    the findings attached to the configuration of [finding]. *)
Definition score_before {CT W Err : Type} (env : Env CT W Err)
    (st : HState CT W Err) (finding : SecurityAnalysis) : Z :=
  get_security_score env
    (sa_severity <$>
       filter (λ a, sa_configuration_id a = sa_configuration_id finding)
              (map_to_list (security_analyses (st_db st))).*2).

(** What the services answer in a run that starts in [st]: the result of the
    GAM command [args] and the domain it leaves behind, the result of the
    extraction that follows it, and the findings of the analyzer on the
    extracted data. *)
Definition command_result {CT W Err : Type} (env : Env CT W Err)
    (args : list pyval) (st : HState CT W Err) : GamResult :=
  (run_gam_command env args (st_world st)).1.

Definition world_after_command {CT W Err : Type} (env : Env CT W Err)
    (args : list pyval) (st : HState CT W Err) : W :=
  (run_gam_command env args (st_world st)).2.

Definition rescan_result {CT W Err : Type} `{ConfigTypeEnum CT} (env : Env CT W Err)
    (request : RemediationRequest) (args : list pyval) (st : HState CT W Err)
    : ExtractResult Err :=
  (extract_all_configs env (config_types_to_extract request)
     (world_after_command env args st)).1.

Definition world_after_rescan {CT W Err : Type} `{ConfigTypeEnum CT} (env : Env CT W Err)
    (request : RemediationRequest) (args : list pyval) (st : HState CT W Err) : W :=
  (extract_all_configs env (config_types_to_extract request)
     (world_after_command env args st)).2.

Definition new_findings {CT W Err : Type} `{ConfigTypeEnum CT} (env : Env CT W Err)
    (request : RemediationRequest) (args : list pyval) (st : HState CT W Err)
    : list FindingDraft :=
  analyze_configuration env (er_data (rescan_result env request args st))
    (single_or_other (config_types_to_extract request)).

Definition extraction_result {CT W Err : Type} (env : Env CT W Err)
    (request : GAMExtractRequest CT) (st : HState CT W Err) : ExtractResult Err :=
  (extract_all_configs env (config_types request) (st_world st)).1.

Definition world_after_extraction {CT W Err : Type} (env : Env CT W Err)
    (request : GAMExtractRequest CT) (st : HState CT W Err) : W :=
  (extract_all_configs env (config_types request) (st_world st)).2.

(** [item_count] as the specification words it: per category, the element
    count if the payload is a sequence, else 1; summed. *)
Fixpoint item_count (data : dict) : Z :=
  match data with
  | [] => 0
  | (_, PList xs) :: rest => Z.of_nat (length xs) + item_count rest
  | (_, _) :: rest => 1 + item_count rest
  end.

(** ** A sample deployment

    A domain with one user, [a@x.com], a store with Configuration 3 and its
    Finding 7 ("No 2FA" for that user), and stub services. *)

Inductive SampleType : Type := ST_USER | ST_OAUTH_TOKENS | ST_GROUP | ST_OTHER.

#[global] Instance sample_config_type : ConfigTypeEnum SampleType := {|
  USER := ST_USER;
  OAUTH_TOKENS := ST_OAUTH_TOKENS;
  OTHER := ST_OTHER;
  ct_value := λ t, match t with
                   | ST_USER => "user"
                   | ST_OAUTH_TOKENS => "oauth_tokens"
                   | ST_GROUP => "group"
                   | ST_OTHER => "other"
                   end
|}.

(** The domain's state: whether two-step verification is enforced for the
    user. *)
Definition SampleWorld : Type := bool.

(** The stub runner: the command goes through when [ok], and [update user]
    turns enforcement on. *)
Definition sample_run (ok : bool) (args : list pyval) (w : SampleWorld)
    : GamResult * SampleWorld :=
  if ok then
    ({| gr_success := true; gr_data := Some "updated"; gr_error := None |},
     match args with
     | PStr verb :: _ => if String.eqb verb "update" then true else w
     | _ => w
     end)
  else
    ({| gr_success := false; gr_data := None; gr_error := Some "ERROR: 403" |}, w).

(** The stub extraction: users and tokens can be read when [ok], nothing
    else can. *)
Definition sample_payload (w : SampleWorld) (t : SampleType) : dict :=
  match t with
  | ST_USER => [("user", PList [PDict [("email", PStr "a@x.com"); ("2sv", PBool w)]])]
  | ST_OAUTH_TOKENS => [("oauth_tokens", PList [])]
  | _ => []
  end.

Definition sample_error (ok : bool) (t : SampleType) : list (string * string) :=
  match t with
  | ST_USER | ST_OAUTH_TOKENS => if ok then [] else [(ct_value t, "timeout")]
  | _ => [(ct_value t, "unsupported")]
  end.

Definition sample_extract (ok : bool) (types : list SampleType) (w : SampleWorld)
    : ExtractResult (string * string) * SampleWorld :=
  let data := if ok then flat_map (sample_payload w) types else [] in
  ({| er_success := py_truthy (PDict data);
      er_data := data;
      er_errors := Some (flat_map (sample_error ok) types) |}, w).

(** The stub analyzer: one "No 2FA" finding per user without two-step
    verification. *)
Definition sample_user_finding (u : pyval) : list FindingDraft :=
  match u with
  | PDict kvs =>
      if py_truthy (dict_get "2sv" kvs) then []
      else [{| fd_severity := high;
               fd_category := Some "authentication";
               fd_title := "No 2FA";
               fd_description := "Two-step verification is not enforced";
               fd_recommendation := "Enforce two-step verification";
               fd_affected_settings := Some (PDict [("user", dict_get "email" kvs)]);
               fd_remediation_steps := None;
               fd_remediation_actions := None |}]
  | _ => []
  end.

Definition sample_analyze (data : dict) (t : SampleType) : list FindingDraft :=
  match dict_lookup "user" data with
  | Some (PList users) => flat_map sample_user_finding users
  | _ => []
  end.

Definition sample_score (severities : list Severity) : Z :=
  Z.max 0 (100 - 25 * Z.of_nat (length severities)).

Definition sample_env (command_ok extract_ok : bool)
    : Env SampleType SampleWorld (string * string) :=
  {| run_gam_command := sample_run command_ok;
     extract_all_configs := sample_extract extract_ok;
     analyze_configuration := sample_analyze;
     get_security_score := sample_score;
     str_errors := λ errs, str_join ", " ((λ e, e.1 +:+ ": " +:+ e.2) <$> errs) |}.

Definition sample_config : Configuration SampleType (string * string) :=
  {| cfg_name := Some "GAM Extract user";
     cfg_description := "Extracted from GAM - Types: user";
     cfg_config_type := ST_USER;
     cfg_config_data :=
       [("user", PList [PDict [("email", PStr "a@x.com"); ("2sv", PBool false)]])];
     cfg_is_template := false;
     cfg_extraction_errors := None |}.

Definition sample_finding : SecurityAnalysis :=
  {| sa_configuration_id := 3;
     sa_severity := high;
     sa_category := Some "authentication";
     sa_title := "No 2FA";
     sa_description := "Two-step verification is not enforced";
     sa_recommendation := "Enforce two-step verification";
     sa_affected_settings := PDict [("user", PStr "a@x.com")];
     sa_remediation_steps := PNone;
     sa_remediation_actions := PNone |}.

Definition sample_db : Db SampleType (string * string) :=
  {| configurations := {[ 3 := sample_config ]};
     security_analyses := {[ 7 := sample_finding ]} |}.

Definition sample_state : HState SampleType SampleWorld (string * string) :=
  {| st_db := sample_db; st_world := false; st_trace := [] |}.

Definition sample_request (action : string) (params : option dict) (rescan : bool)
    : RemediationRequest :=
  {| finding_id := 7; action_id := action; parameters := params;
     auto_rescan := rescan |}.

(** A request about Finding 99, which the sample store does not hold. *)
Definition stray_request (params : option dict) : RemediationRequest :=
  {| finding_id := 99; action_id := "enforce_2fa"; parameters := params;
     auto_rescan := true |}.

Definition enforce_request : RemediationRequest :=
  sample_request "enforce_2fa" (Some [("user_email", PStr "a@x.com")]) true.

Definition enforce_command : list pyval :=
  [PStr "update"; PStr "user"; PStr "a@x.com"; PStr "enforcein2sv"; PStr "true"].

Definition sample_extract_request : GAMExtractRequest SampleType :=
  {| config_types := [ST_USER; ST_GROUP];
     save_as_template := false;
     template_name := None |}.

(** ** More vocabulary *)

(** The response of lines 75-82 of [remediation.py]. *)
Definition failure_response (request : RemediationRequest) (r : GamResult)
    : RemediationResponse :=
  {| success := false;
     message := "Remediation failed: " +:+ str_of_optional (gr_error r);
     resp_finding_id := finding_id request;
     action_executed := action_id request;
     gam_output := gr_error r;
     new_configuration_id := None;
     security_score_before := None;
     security_score_after := None;
     finding_resolved := false |}.

(** The response of lines 148-158 of [remediation.py]. *)
Definition success_response (request : RemediationRequest) (r : GamResult)
    (before : Z) (new_config_id score_after : option Z) (resolved : bool)
    : RemediationResponse :=
  {| success := true;
     message := "Remediation executed successfully" +:+
                (if resolved then " and verified" else "");
     resp_finding_id := finding_id request;
     action_executed := action_id request;
     gam_output := gr_data r;
     new_configuration_id := new_config_id;
     security_score_before := Some before;
     security_score_after := score_after;
     finding_resolved := resolved |}.

(** The exceptions [execute_remediation] raises. *)
Definition remediation_error (request : RemediationRequest) (e : PyExc) : Prop :=
  e = HTTPException 404 "Security finding not found" ∨
  e = HTTPException 404 "Configuration not found" ∨
  e = HTTPException 400 "user_email parameter required" ∨
  e = HTTPException 400 "user and client_id parameters required" ∨
  e = HTTPException 400 ("Unknown action_id: " +:+ action_id request) ∨
  e = AttributeError "'NoneType' object has no attribute 'get'".

(** A required parameter of the action has a value Python counts as false
    in [d] (the key may be there: [""], [0], [False], [None], an empty list
    or dict) or no value at all. *)
Definition falsy_required_parameter (a : string) (d : dict) : Prop :=
  (a = "enforce_2fa" ∧ py_truthy (dict_get "user_email" d) = false) ∨
  (a = "revoke_oauth_token" ∧
   (py_truthy (dict_get "user" d) = false ∨
    py_truthy (dict_get "client_id" d) = false)).

(** The state after the GAM command [args] of a run that starts in [st],
    and after the extraction that follows it. *)
Definition state_after_command {CT W Err : Type} (env : Env CT W Err)
    (args : list pyval) (st : HState CT W Err) : HState CT W Err :=
  {| st_db := st_db st;
     st_world := world_after_command env args st;
     st_trace := st_trace st ++ [EvRunGam args] |}.

Definition state_after_failed_rescan {CT W Err : Type} `{ConfigTypeEnum CT}
    (env : Env CT W Err) (request : RemediationRequest) (args : list pyval)
    (st : HState CT W Err) : HState CT W Err :=
  {| st_db := st_db st;
     st_world := world_after_rescan env request args st;
     st_trace := st_trace st ++
                 [EvRunGam args; EvExtractAll (config_types_to_extract request)] |}.

Definition state_after_rescan {CT W Err : Type} `{ConfigTypeEnum CT}
    (env : Env CT W Err) (request : RemediationRequest)
    (finding : SecurityAnalysis) (config : Configuration CT Err)
    (args : list pyval) (st : HState CT W Err) : HState CT W Err :=
  let i := next_id (configurations (st_db st)) in
  {| st_db :=
       {| configurations :=
            <[i := post_remediation_config config finding
                     (config_types_to_extract request)
                     (er_data (rescan_result env request args st))]>
              (configurations (st_db st));
          security_analyses :=
            insert_analyses (rescan_row i <$> new_findings env request args st)
                            (security_analyses (st_db st)) |};
     st_world := world_after_rescan env request args st;
     st_trace := st_trace st ++
                 [EvRunGam args; EvExtractAll (config_types_to_extract request)] |}.

(** Dict keys are unique, at every depth: what holds of every value Python
    builds. *)
Fixpoint unique_keys (v : pyval) : bool :=
  match v with
  | PList xs =>
      (fix all (xs : list pyval) : bool :=
         match xs with
         | [] => true
         | x :: xs' => unique_keys x && all xs'
         end) xs
  | PDict kvs =>
      bool_decide (NoDup kvs.*1) &&
      (fix all (kvs : list (string * pyval)) : bool :=
         match kvs with
         | [] => true
         | (_, v) :: rest => unique_keys v && all rest
         end) kvs
  | _ => true
  end.

(** The ids an SQL [INTEGER] primary key column holds: signed, 32 bits.
    ([app.db.models] is not among the sources.)  A request may carry any
    integer as [finding_id]; for one outside this range the database driver
    refuses the query parameter, which the table lookups of this model do
    not cover. *)
Definition sql_integer (i : Z) : Prop := - 2 ^ 31 ≤ i < 2 ^ 31.

(** Python's [==] on these values, as the language defines it.  Booleans
    and integers are numbers and compare by value ([True] is [1]); strings
    compare by their characters; lists compare element by element, in
    order; dicts compare as mappings, whatever the order of their keys: as
    many keys on both sides, and each key of the left with an equal value
    on the right; values of different kinds are not equal. *)
Definition py_number (v : pyval) : option Z :=
  match v with
  | PBool b => Some (if b then 1 else 0)
  | PInt n => Some n
  | _ => None
  end.

Inductive py_equal : pyval → pyval → Prop :=
| py_equal_none : py_equal PNone PNone
| py_equal_number a b n :
    py_number a = Some n → py_number b = Some n → py_equal a b
| py_equal_str s : py_equal (PStr s) (PStr s)
| py_equal_list xs ys :
    Forall2 py_equal xs ys → py_equal (PList xs) (PList ys)
| py_equal_dict kvs kvs' :
    length kvs = length kvs' →
    Forall (λ kv, ∃ v', dict_lookup kv.1 kvs' = Some v' ∧ py_equal kv.2 v') kvs →
    py_equal (PDict kvs) (PDict kvs').

(** Structural induction on Python values, through the lists. *)
Section PyvalInduction.
Variable P : pyval → Prop.
Hypothesis P_none : P PNone.
Hypothesis P_bool : ∀ b, P (PBool b).
Hypothesis P_int : ∀ n, P (PInt n).
Hypothesis P_str : ∀ s, P (PStr s).
Hypothesis P_list : ∀ xs, Forall P xs → P (PList xs).
Hypothesis P_dict : ∀ kvs, Forall (λ kv, P kv.2) kvs → P (PDict kvs).

Fixpoint pyval_nested_ind (v : pyval) : P v :=
  match v with
  | PNone => P_none
  | PBool b => P_bool b
  | PInt n => P_int n
  | PStr s => P_str s
  | PList xs =>
      P_list xs
        ((fix go (xs : list pyval) : Forall P xs :=
            match xs with
            | [] => @List.Forall_nil _ P
            | x :: xs' => @List.Forall_cons _ P x xs' (pyval_nested_ind x) (go xs')
            end) xs)
  | PDict kvs =>
      P_dict kvs
        ((fix go (kvs : list (string * pyval)) : Forall (λ kv, P kv.2) kvs :=
            match kvs with
            | [] => @List.Forall_nil _ (λ kv, P kv.2)
            | kv :: rest => @List.Forall_cons _ (λ kv, P kv.2) kv rest (pyval_nested_ind kv.2) (go rest)
            end) kvs)
  end.
End PyvalInduction.

(** ** More of the sample deployment *)

(** A GAM that reports success and changes nothing. *)
Definition idle_env : Env SampleType SampleWorld (string * string) :=
  {| run_gam_command := λ _ w,
       ({| gr_success := true; gr_data := Some "ok"; gr_error := None |}, w);
     extract_all_configs := sample_extract true;
     analyze_configuration := sample_analyze;
     get_security_score := sample_score;
     str_errors := λ _, "" |}.

(** A request whose [user_email] is the empty string. *)
Definition blank_request : RemediationRequest :=
  sample_request "enforce_2fa" (Some [("user_email", PStr "")]) true.

(** The request of the scenario, without the rescan. *)
Definition quiet_request : RemediationRequest :=
  sample_request "enforce_2fa" (Some [("user_email", PStr "a@x.com")]) false.

(** A store whose Finding 8 points at Configuration 5, which is not there. *)
Definition dangling_db : Db SampleType (string * string) :=
  {| configurations := {[ 3 := sample_config ]};
     security_analyses :=
       {[ 8 := {| sa_configuration_id := 5;
                  sa_severity := low;
                  sa_category := None;
                  sa_title := "Orphan";
                  sa_description := "";
                  sa_recommendation := "";
                  sa_affected_settings := PNone;
                  sa_remediation_steps := PNone;
                  sa_remediation_actions := PNone |} ]} |}.

Definition dangling_state : HState SampleType SampleWorld (string * string) :=
  {| st_db := dangling_db; st_world := false; st_trace := [] |}.

(** A request to save the users as a template, with no name given. *)
Definition nameless_template_request : GAMExtractRequest SampleType :=
  {| config_types := [ST_USER];
     save_as_template := true;
     template_name := None |}.

(** A GAM that reports success; afterwards the domain shows another user,
    [b@x.com], without two-step verification. *)
Definition other_user_env : Env SampleType SampleWorld (string * string) :=
  {| run_gam_command := λ _ w,
       ({| gr_success := true; gr_data := Some "ok"; gr_error := None |}, w);
     extract_all_configs := λ _ w,
       ({| er_success := true;
           er_data := [("user", PList [PDict [("email", PStr "b@x.com");
                                              ("2sv", PBool false)]])];
           er_errors := None |}, w);
     analyze_configuration := sample_analyze;
     get_security_score := sample_score;
     str_errors := λ _, "" |}.

(** A request with an unknown action for Finding 8 of [dangling_db]. *)
Definition dangling_request : RemediationRequest :=
  {| finding_id := 8; action_id := "no_such_action"; parameters := Some [];
     auto_rescan := true |}.

(** An extraction request that names the groups twice. *)
Definition repeated_extract_request : GAMExtractRequest SampleType :=
  {| config_types := [ST_GROUP; ST_USER; ST_GROUP];
     save_as_template := false;
     template_name := None |}.

(** A store with two findings of Configuration 3. *)
Definition two_findings_db : Db SampleType (string * string) :=
  {| configurations := {[ 3 := sample_config ]};
     security_analyses := <[ 9 := sample_finding ]> {[ 7 := sample_finding ]} |}.

Definition two_findings_state : HState SampleType SampleWorld (string * string) :=
  {| st_db := two_findings_db; st_world := false; st_trace := [] |}.

(** An extraction request for users alone. *)
Definition user_extract_request : GAMExtractRequest SampleType :=
  {| config_types := [ST_USER];
     save_as_template := false;
     template_name := None |}.

(** * Properties *)

(** Unfolds the monad so that a handler run becomes a nest of [match]es. *)
Ltac unfold_monad :=
  unfold mbind, handler_bind, mret, handler_ret, raise in *.

(** ** The store *)

Lemma foldr_max_ge (k : Z) (l : list Z) : k ∈ l → k ≤ foldr Z.max 0 l.
Proof.
  induction l as [|x l IH]; intros Hin.
  - by apply elem_of_nil in Hin.
  - apply elem_of_cons in Hin as [->|Hin]; simpl; [lia|].
    specialize (IH Hin). lia.
Qed.

(** The id given to a new row is not in use. *)
Lemma next_id_fresh {A : Type} (table : gmap Z A) : table !! next_id table = None.
Proof.
  destruct (table !! next_id table) as [x|] eqn:Hx; [|done].
  apply elem_of_map_to_list in Hx.
  assert (next_id table ∈ (map_to_list table).*1) as Hin.
  { apply list_elem_of_fmap. by exists (next_id table, x). }
  apply foldr_max_ge in Hin. unfold next_id in Hin at 1. lia.
Qed.

Section Properties.
Context {CT W Err : Type} `{ConfigTypeEnum CT}.
Variable env : Env CT W Err.
Implicit Types (st : HState CT W Err) (request : RemediationRequest).
Implicit Types (finding : SecurityAnalysis) (config : Configuration CT Err).

(** ** Dispatch: lines 52-72 of [remediation.py] *)

Lemma dispatch_action_valid request args st :
  passes_validation request args →
  dispatch_action env request st = run_gam env args st.
Proof.
  intros Hv. unfold dispatch_action, parameters_get.
  destruct Hv as [request d u Ha Hp Hu Ht | request d u c Ha Hp Hu Htu Hc Htc];
    rewrite Ha, Hp; simpl; unfold_monad; unfold dict_get.
  - by rewrite Hu, Ht.
  - by rewrite Hu, Hc, Htu, Htc.
Qed.

Lemma dispatch_action_unknown request st :
  ¬ known_action (action_id request) →
  dispatch_action env request st =
    (Raise (HTTPException 400 ("Unknown action_id: " +:+ action_id request)), st).
Proof.
  intros Hk. unfold dispatch_action.
  destruct (String.eqb_spec (action_id request) "enforce_2fa") as [E|_].
  { destruct Hk. by left. }
  destruct (String.eqb_spec (action_id request) "revoke_oauth_token") as [E|_].
  { destruct Hk. by right. }
  done.
Qed.

Lemma dispatch_action_missing request d st :
  parameters request = Some d →
  lacks_required_parameter (action_id request) d →
  dispatch_action env request st =
    (Raise (HTTPException 400 (missing_parameter_detail (action_id request))), st).
Proof.
  intros Hp [[Ha Hu] | [Ha Hm]];
    unfold dispatch_action, parameters_get, missing_parameter_detail;
    rewrite Ha, Hp; simpl; unfold_monad; unfold dict_get.
  - by rewrite Hu.
  - destruct Hm as [Hu | Hc].
    + by rewrite Hu.
    + rewrite Hc. simpl. by rewrite orb_true_r.
Qed.

Lemma dispatch_action_no_parameters request st :
  parameters request = None →
  known_action (action_id request) →
  dispatch_action env request st =
    (Raise (AttributeError "'NoneType' object has no attribute 'get'"), st).
Proof.
  intros Hp [Ha | Ha]; unfold dispatch_action, parameters_get;
    rewrite Ha, Hp; done.
Qed.

(** The dispatch runs a command exactly for the requests that pass
    validation: every other request makes it raise, in whatever state. *)
Lemma dispatch_action_cases request :
  (∃ args, passes_validation request args) ∨
  (∃ e, ∀ st, dispatch_action env request st = (Raise e, st)).
Proof.
  destruct (String.eqb_spec (action_id request) "enforce_2fa") as [Ha|Ha].
  - destruct (parameters request) as [d|] eqn:Hp.
    + destruct (dict_lookup "user_email" d) as [u|] eqn:Hu.
      * destruct (py_truthy u) eqn:Ht.
        -- left. eexists. by eapply valid_enforce_2fa.
        -- right. eexists. intros st.
           unfold dispatch_action, parameters_get, dict_get.
           rewrite Ha, Hp. simpl. unfold_monad. by rewrite Hu, Ht.
      * right. eexists. intros st. apply (dispatch_action_missing request d); [done|].
        left. by split.
    + right. eexists. intros st. apply dispatch_action_no_parameters; [done|by left].
  - destruct (String.eqb_spec (action_id request) "revoke_oauth_token") as [Hb|Hb].
    + destruct (parameters request) as [d|] eqn:Hp.
      * destruct (dict_lookup "user" d) as [u|] eqn:Hu;
          [destruct (dict_lookup "client_id" d) as [c|] eqn:Hc|].
        -- destruct (py_truthy u && py_truthy c) eqn:Ht.
           ++ apply andb_true_iff in Ht as [Htu Htc].
              left. eexists. by eapply valid_revoke_oauth_token.
           ++ right. eexists. intros st.
              unfold dispatch_action, parameters_get, dict_get.
              rewrite Hb, Hp. simpl. unfold_monad. rewrite Hu, Hc.
              rewrite <- negb_andb, Ht. done.
        -- right. eexists. intros st.
           apply (dispatch_action_missing request d); [done|].
           right. split; [done|by right].
        -- right. eexists. intros st.
           apply (dispatch_action_missing request d); [done|].
           right. split; [done|by left].
      * right. eexists. intros st.
        apply dispatch_action_no_parameters; [done|by right].
    + right. eexists. intros st. apply dispatch_action_unknown.
      by intros [?|?].
Qed.

(** ** Lookup: lines 21-44 *)

Lemma execute_remediation_finding_not_found request st :
  security_analyses (st_db st) !! finding_id request = None →
  execute_remediation env request st =
    (Raise (HTTPException 404 "Security finding not found"), st).
Proof.
  intros Hf. unfold execute_remediation, db_get_finding. unfold_monad.
  by rewrite Hf.
Qed.

Lemma execute_remediation_configuration_not_found request finding st :
  security_analyses (st_db st) !! finding_id request = Some finding →
  configurations (st_db st) !! sa_configuration_id finding = None →
  execute_remediation env request st =
    (Raise (HTTPException 404 "Configuration not found"), st).
Proof.
  intros Hf Hc.
  unfold execute_remediation, db_get_finding, db_get_configuration. unfold_monad.
  by rewrite Hf, Hc.
Qed.

(** Once lookup has passed, an exception of the dispatch is the handler's. *)
Lemma execute_remediation_dispatch_raises request finding config st e st' :
  passes_lookup (st_db st) request finding config →
  dispatch_action env request st = (Raise e, st') →
  execute_remediation env request st = (Raise e, st').
Proof.
  intros [Hf Hc] Hd.
  unfold execute_remediation, db_get_finding, db_get_configuration, db_list_findings.
  unfold_monad. by rewrite Hf, Hc, Hd.
Qed.

(** Once lookup has passed and the command has run, the handler is lines
    74-158. *)
Lemma execute_remediation_after_command request finding config args st :
  passes_lookup (st_db st) request finding config →
  passes_validation request args →
  execute_remediation env request st =
    let '(gam_result, st1) := run_gam env args st in
    match gam_result with
    | Raise e => (Raise e, st1)
    | Return gam_result =>
      if negb (gr_success gam_result) then
        (Return {| success := false;
                   message := "Remediation failed: " +:+
                              str_of_optional (gr_error gam_result);
                   resp_finding_id := finding_id request;
                   action_executed := action_id request;
                   gam_output := gr_error gam_result;
                   new_configuration_id := None;
                   security_score_before := None;
                   security_score_after := None;
                   finding_resolved := false |}, st1)
      else
        match rescan env request config finding st1 with
        | (Raise e, st2) => (Raise e, st2)
        | (Return (new_config_id, score_after, resolved), st2) =>
          (Return {| success := true;
                     message := "Remediation executed successfully" +:+
                                (if resolved then " and verified" else "");
                     resp_finding_id := finding_id request;
                     action_executed := action_id request;
                     gam_output := gr_data gam_result;
                     new_configuration_id := new_config_id;
                     security_score_before := Some (score_before env st finding);
                     security_score_after := score_after;
                     finding_resolved := resolved |}, st2)
        end
    end.
Proof.
  intros [Hf Hc] Hv.
  unfold execute_remediation, db_get_finding, db_get_configuration, db_list_findings.
  unfold_monad. rewrite Hf, Hc.
  rewrite (dispatch_action_valid _ _ _ Hv).
  destruct (run_gam env args st) as [[r|e] st1]; [|done].
  destruct (negb (gr_success r)); [done|].
  destruct (rescan env request config finding st1) as [[[[i s] b]|e] st2]; done.
Qed.

(** ** Outcomes of lookup and validation failures *)

(** C2, with the order of the checks made explicit: the handler aborts
    with 404 "Security finding not found" when the finding (looked up by an
    id of the store's range) does not exist, with 404 "Configuration not
    found" when the finding exists and its configuration does not, and with
    400 naming the action when both exist and the action is not one of the
    two known ones.  Each time the state it leaves is the state it started
    in: the trace holds no call to the GAM service and the domain is
    untouched. *)
Theorem lookup_and_action_failures_abort request st :
  (sql_integer (finding_id request) →
   security_analyses (st_db st) !! finding_id request = None →
   execute_remediation env request st =
     (Raise (HTTPException 404 "Security finding not found"), st)) ∧
  (∀ finding,
     security_analyses (st_db st) !! finding_id request = Some finding →
     configurations (st_db st) !! sa_configuration_id finding = None →
     execute_remediation env request st =
       (Raise (HTTPException 404 "Configuration not found"), st)) ∧
  (∀ finding config,
     passes_lookup (st_db st) request finding config →
     ¬ known_action (action_id request) →
     execute_remediation env request st =
       (Raise (HTTPException 400 ("Unknown action_id: " +:+ action_id request)),
        st)).
Proof.
  split; [|split].
  - intros _ Hf. by apply execute_remediation_finding_not_found.
  - intros finding Hf Hc.
    by apply (execute_remediation_configuration_not_found request finding).
  - intros finding config Hl Hk.
    apply (execute_remediation_dispatch_raises request finding config); [done|].
    by apply dispatch_action_unknown.
Qed.

(** Whatever the dispatch raises without running a command, the handler
    raises it or a 404 of the lookup, and leaves the state as it was. *)
Lemma execute_remediation_aborts request st e :
  (∀ st0, dispatch_action env request st0 = (Raise e, st0)) →
  ∃ e', execute_remediation env request st = (Raise e', st) ∧
        (e' = e ∨ ∃ detail, e' = HTTPException 404 detail).
Proof.
  intros Hd.
  destruct (security_analyses (st_db st) !! finding_id request) as [finding|] eqn:Hf.
  - destruct (configurations (st_db st) !! sa_configuration_id finding)
      as [config|] eqn:Hc.
    + exists e. split; [|by left].
      by apply (execute_remediation_dispatch_raises request finding config).
    + eexists. split; [|right; by eexists].
      by apply (execute_remediation_configuration_not_found request finding).
  - eexists. split; [|right; by eexists].
    by apply execute_remediation_finding_not_found.
Qed.


(** C9, as amended: for a request for a known action that carries no
    parameters at all ([parameters] is [None]), the access
    [request.parameters.get] raises [AttributeError], which the handler
    does not catch, when the finding and the configuration of that finding
    exist; whether they exist or not, the handler never answers with a 400
    and leaves the state as it found it, so the GAM service is never
    called. *)
Theorem omitted_parameters_raise_attribute_error request st :
  parameters request = None →
  known_action (action_id request) →
  (∃ e, execute_remediation env request st = (Raise e, st) ∧
        ∀ detail, e ≠ HTTPException 400 detail) ∧
  (∀ finding config, passes_lookup (st_db st) request finding config →
     execute_remediation env request st =
       (Raise (AttributeError "'NoneType' object has no attribute 'get'"), st)).
Proof.
  intros Hp Hk. split.
  - destruct (execute_remediation_aborts request st
                (AttributeError "'NoneType' object has no attribute 'get'"))
      as (e & He & [->|[detail ->]]).
    + intros st0. by apply dispatch_action_no_parameters.
    + by eexists.
    + eexists. split; [done|]. intros detail'. congruence.
  - intros finding config Hl.
    apply (execute_remediation_dispatch_raises request finding config); [done|].
    by apply dispatch_action_no_parameters.
Qed.

(** ** The command and the rescan: lines 74-158 *)

Lemma passes_validation_types request args :
  passes_validation request args →
  config_types_to_extract request = [USER] ∨
  config_types_to_extract request = [OAUTH_TOKENS].
Proof.
  intros [request' d u Ha _ _ _ | request' d u c Ha _ _ _ _ _];
    unfold config_types_to_extract; rewrite Ha; simpl; auto.
Qed.

Lemma passes_validation_known request args :
  passes_validation request args → known_action (action_id request).
Proof. intros [request' d u Ha _ _ _ | request' d u c Ha _ _ _ _ _]; [by left|by right]. Qed.

(** The rescan when it is asked for and there is something to extract. *)
Lemma rescan_on request config finding st t l :
  auto_rescan request = true →
  config_types_to_extract request = t :: l →
  rescan env request config finding st =
    let x := (extract_all_configs env (t :: l) (st_world st)).1 in
    let w := (extract_all_configs env (t :: l) (st_world st)).2 in
    if er_success x then
      let i := next_id (configurations (st_db st)) in
      let fs := analyze_configuration env (er_data x) (single_or_other (t :: l)) in
      (Return (Some i,
               Some (get_security_score env (fd_severity <$> fs)),
               negb (existsb (same_finding finding) fs)),
       {| st_db :=
            {| configurations :=
                 <[i := post_remediation_config config finding (t :: l) (er_data x)]>
                   (configurations (st_db st));
               security_analyses :=
                 insert_analyses (rescan_row i <$> fs) (security_analyses (st_db st)) |};
          st_world := w;
          st_trace := st_trace st ++ [EvExtractAll (t :: l)] |})
    else
      (Return (None, None, false),
       {| st_db := st_db st; st_world := w;
          st_trace := st_trace st ++ [EvExtractAll (t :: l)] |}).
Proof.
  intros Ha Ht. unfold rescan. rewrite Ha, Ht.
  unfold extract_all, db_add_configuration, db_add_findings. unfold_monad.
  destruct (extract_all_configs env (t :: l) (st_world st)) as [x w]. simpl.
  by destruct (er_success x).
Qed.

(** C1: when lookup and validation pass and the GAM command fails, the
    handler returns at once: [success] is false, the message carries the
    command's error, [new_configuration_id] and [security_score_after] are
    null and [finding_resolved] is false; the store is unchanged and the
    only call made to the GAM service is the command itself (no extraction
    follows).  Nothing is assumed of [auto_rescan]. *)
Theorem command_failure_is_terminal request finding config args st :
  passes_lookup (st_db st) request finding config →
  passes_validation request args →
  gr_success (command_result env args st) = false →
  ∃ resp st',
    execute_remediation env request st = (Return resp, st') ∧
    success resp = false ∧
    message resp = "Remediation failed: " +:+
                   str_of_optional (gr_error (command_result env args st)) ∧
    gam_output resp = gr_error (command_result env args st) ∧
    new_configuration_id resp = None ∧
    security_score_after resp = None ∧
    finding_resolved resp = false ∧
    st_db st' = st_db st ∧
    st_trace st' = (st_trace st ++ [EvRunGam args])%list.
Proof.
  intros Hl Hv Hs.
  rewrite (execute_remediation_after_command _ _ _ _ _ Hl Hv).
  unfold run_gam. unfold command_result in *.
  destruct (run_gam_command env args (st_world st)) as [r w]. simpl in *.
  rewrite Hs. simpl. eexists _, _. split; [done|]. by repeat split.
Qed.

(** C10: when the command succeeds, a rescan is asked for and the
    extraction that follows reports [success = false], the handler still
    answers [success = true] with the plain success message; the response
    is fixed by the request, the command's output and the score before, so
    nothing of the extraction result appears in it:
    [new_configuration_id] and [security_score_after] are null and
    [finding_resolved] is false.  The store is unchanged. *)
Theorem failed_rescan_is_silent request finding config args st :
  passes_lookup (st_db st) request finding config →
  passes_validation request args →
  auto_rescan request = true →
  gr_success (command_result env args st) = true →
  er_success (rescan_result env request args st) = false →
  ∃ st',
    execute_remediation env request st =
      (Return {| success := true;
                 message := "Remediation executed successfully";
                 resp_finding_id := finding_id request;
                 action_executed := action_id request;
                 gam_output := gr_data (command_result env args st);
                 new_configuration_id := None;
                 security_score_before := Some (score_before env st finding);
                 security_score_after := None;
                 finding_resolved := false |}, st') ∧
    st_db st' = st_db st ∧
    st_trace st' = (st_trace st ++
                    [EvRunGam args; EvExtractAll (config_types_to_extract request)])%list.
Proof.
  intros Hl Hv Ha Hs Hx.
  rewrite (execute_remediation_after_command _ _ _ _ _ Hl Hv).
  unfold rescan_result, world_after_command, command_result in *.
  unfold run_gam.
  destruct (run_gam_command env args (st_world st)) as [r w]. simpl in *.
  rewrite Hs. simpl.
  destruct (passes_validation_types _ _ Hv) as [Ht|Ht];
    rewrite (rescan_on _ _ _ _ _ _ Ha Ht); rewrite Ht in Hx |- *; simpl in *;
    rewrite Hx; eexists; (split; [done|]); simpl; by rewrite <- app_assoc.
Qed.

Lemma existsb_same_finding finding (fs : list FindingDraft) :
  negb (existsb (same_finding finding) fs) = true ↔
  ∀ f, f ∈ fs →
    ¬ (fd_title f = sa_title finding ∧
       py_eq (draft_get (fd_affected_settings f)) (sa_affected_settings finding) = true).
Proof.
  rewrite negb_true_iff. split.
  - intros Hn f Hin [Ht He].
    assert (existsb (same_finding finding) fs = true) as Hex; [|congruence].
    apply existsb_exists. exists f. split; [by apply list_elem_of_In|].
    unfold same_finding. rewrite He, andb_true_r. by apply String.eqb_eq.
  - intros Hall. apply not_true_is_false. intros Hex.
    apply existsb_exists in Hex as (f & Hin & Hs).
    unfold same_finding in Hs. apply andb_true_iff in Hs as [Ht He].
    apply (Hall f); [by apply list_elem_of_In|].
    split; [by apply String.eqb_eq|done].
Qed.

Lemma single_or_other_spec (types : list CT) :
  (∀ t, types = [t] → single_or_other types = t) ∧
  (length types ≠ 1%nat → single_or_other types = OTHER).
Proof.
  split.
  - by intros t ->.
  - intros Hn. destruct types as [|t [|t' l]]; simpl in *; done.
Qed.

(** The run of the handler when the command and the extraction both go
    through. *)
Lemma execute_remediation_rescanned request finding config args st :
  passes_lookup (st_db st) request finding config →
  passes_validation request args →
  auto_rescan request = true →
  gr_success (command_result env args st) = true →
  er_success (rescan_result env request args st) = true →
  let types := config_types_to_extract request in
  let fs := new_findings env request args st in
  let i := next_id (configurations (st_db st)) in
  let resolved := negb (existsb (same_finding finding) fs) in
  execute_remediation env request st =
    (Return {| success := true;
               message := "Remediation executed successfully" +:+
                          (if resolved then " and verified" else "");
               resp_finding_id := finding_id request;
               action_executed := action_id request;
               gam_output := gr_data (command_result env args st);
               new_configuration_id := Some i;
               security_score_before := Some (score_before env st finding);
               security_score_after :=
                 Some (get_security_score env (fd_severity <$> fs));
               finding_resolved := resolved |},
     {| st_db :=
          {| configurations :=
               <[i := post_remediation_config config finding types
                        (er_data (rescan_result env request args st))]>
                 (configurations (st_db st));
             security_analyses :=
               insert_analyses (rescan_row i <$> fs) (security_analyses (st_db st)) |};
        st_world := world_after_rescan env request args st;
        st_trace := (st_trace st ++ [EvRunGam args; EvExtractAll types])%list |}).
Proof.
  intros Hl Hv Ha Hs Hx.
  rewrite (execute_remediation_after_command _ _ _ _ _ Hl Hv).
  unfold new_findings, world_after_rescan, rescan_result, world_after_command,
    command_result in *.
  unfold run_gam.
  destruct (run_gam_command env args (st_world st)) as [r w]. simpl in *.
  rewrite Hs. simpl.
  destruct (passes_validation_types _ _ Hv) as [Ht|Ht];
    rewrite (rescan_on _ _ _ _ _ _ Ha Ht); rewrite Ht in Hx |- *; simpl in *;
    rewrite Hx; by rewrite <- app_assoc.
Qed.

(** ** Extraction: [gam.py] *)

Lemma foldl_add_acc (l : list Z) (a : Z) : foldl Z.add a l = a + foldl Z.add 0 l.
Proof.
  revert a. induction l as [|x l IH]; intros a; simpl; [lia|].
  rewrite (IH (a + x)), (IH (0 + x)). lia.
Qed.

(** The sum at lines 34-37 is the [item_count] of the specification. *)
Lemma count_items_item_count (data : dict) : count_items data = item_count data.
Proof.
  unfold count_items, dict_values.
  induction data as [|[k v] data IH]; [done|].
  change (foldl Z.add 0 (item_size <$> ((k, v) :: data).*2))
    with (foldl Z.add (0 + item_size v) (item_size <$> data.*2)).
  rewrite foldl_add_acc, IH. by destruct v.
Qed.

Lemma dict_contains_keys {A : Type} (k : string) (d : list (string * A)) :
  dict_contains k d = true ↔ k ∈ dict_keys d.
Proof.
  unfold dict_contains, dict_keys.
  induction d as [|[k' v] d IH]; simpl.
  - split; [done|]. intros Hin. by apply elem_of_nil in Hin.
  - rewrite elem_of_cons. destruct (String.eqb_spec k k') as [->|Hne].
    + split; auto.
    + rewrite IH. split; [auto|]. by intros [?|?].
Qed.

(** Line 40 computes the requested types whose value is not a key of the
    extracted data. *)
Lemma failed_config_types_spec (types : list CT) (data : dict) (t : CT) :
  t ∈ failed_config_types types data ↔
  t ∈ types ∧ ct_value t ∉ dict_keys data.
Proof.
  unfold failed_config_types.
  rewrite list_elem_of_In, filter_In, negb_true_iff.
  rewrite <- list_elem_of_In, <- dict_contains_keys.
  split; intros [Hin Hc]; (split; [done|]).
  - by rewrite Hc.
  - by destruct (dict_contains (ct_value t) data).
Qed.

(** The run of the handler when every category failed. *)
Lemma extract_gam_config_failed (request : GAMExtractRequest CT) st :
  er_success (extraction_result env request st) = false →
  er_data (extraction_result env request st) = [] →
  extract_gam_config env request st =
    (Raise (HTTPException 500
              ("Failed to extract configurations: " +:+
               str_errors env (default [] (er_errors (extraction_result env request st))))),
     {| st_db := st_db st;
        st_world := world_after_extraction env request st;
        st_trace := (st_trace st ++ [EvExtractAll (config_types request)])%list |}).
Proof.
  unfold extraction_result, world_after_extraction, extract_gam_config, extract_all.
  unfold_monad.
  destruct (extract_all_configs env (config_types request) (st_world st)) as [x w].
  simpl. by intros -> ->.
Qed.

(** The test at line 26 fails when the extraction succeeded or brought data. *)
Lemma extraction_guard_passes (x : ExtractResult Err) :
  er_success x = true ∨ er_data x ≠ [] →
  negb (er_success x) && negb (py_truthy (PDict (er_data x))) = false.
Proof.
  intros [->|Hd]; [done|].
  destruct (er_data x); [done|]. simpl. by rewrite andb_false_r.
Qed.

(** The run of the handler when something was extracted. *)
Lemma extract_gam_config_stored (request : GAMExtractRequest CT) st :
  er_success (extraction_result env request st) = true ∨
    er_data (extraction_result env request st) ≠ [] →
  let x := extraction_result env request st in
  let errors := default [] (er_errors x) in
  let failed := failed_config_types (config_types request) (er_data x) in
  let i := next_id (configurations (st_db st)) in
  let cfg := extracted_config request (er_data x) errors failed in
  extract_gam_config env request st =
    (Return (extract_response request errors (count_items (er_data x)) failed i),
     {| st_db :=
          {| configurations := <[i := cfg]> (configurations (st_db st));
             security_analyses :=
               insert_analyses
                 (extract_row i <$>
                    analyze_configuration env (er_data x)
                      (single_or_other (config_types request)))
                 (security_analyses (st_db st)) |};
        st_world := world_after_extraction env request st;
        st_trace := (st_trace st ++ [EvExtractAll (config_types request)])%list |}).
Proof.
  unfold extraction_result, world_after_extraction, extract_gam_config, extract_all,
    db_add_configuration, db_add_findings.
  unfold_monad.
  destruct (extract_all_configs env (config_types request) (st_world st)) as [x w].
  cbn [fst snd]. intros Hok. by rewrite (extraction_guard_passes _ Hok).
Qed.

(** C4: when the extraction reports [success = false] with an empty data
    mapping, the handler fails with status 500; the detail is the fixed
    prefix followed by the printed list of collected errors, and the store
    is left as it was: no configuration and no finding is stored. *)
Theorem total_extraction_failure_is_500 (request : GAMExtractRequest CT) st :
  er_success (extraction_result env request st) = false →
  er_data (extraction_result env request st) = [] →
  ∃ st',
    extract_gam_config env request st =
      (Raise (HTTPException 500
                ("Failed to extract configurations: " +:+
                 str_errors env
                   (default [] (er_errors (extraction_result env request st))))),
       st') ∧
    st_db st' = st_db st.
Proof.
  intros Hs Hd. rewrite (extract_gam_config_failed _ _ Hs Hd). by eexists.
Qed.

(** C5: when the value of at least one requested type is a key of the
    extracted data, the handler returns a response (no exception) with
    [success = true], and [failed_types] is the list of requested types
    whose value is not a key of the data: a type is in it exactly when it
    was requested and is missing from the data, and the field is null when
    there is no such type. *)
Theorem partial_extraction_reports_failed_types (request : GAMExtractRequest CT) st :
  (∃ t, t ∈ config_types request ∧
        ct_value t ∈ dict_keys (er_data (extraction_result env request st))) →
  ∃ resp st' failed,
    extract_gam_config env request st = (Return resp, st') ∧
    x_success resp = true ∧
    (∀ t, t ∈ failed ↔
          t ∈ config_types request ∧
          ct_value t ∉ dict_keys (er_data (extraction_result env request st))) ∧
    failed_types resp = match failed with [] => None | _ :: _ => Some failed end.
Proof.
  intros (t & _ & Hk).
  rewrite extract_gam_config_stored.
  - eexists _, _, _. split; [done|]. split; [done|]. split.
    + apply failed_config_types_spec.
    + done.
  - right. intros Hd. rewrite Hd in Hk. by apply elem_of_nil in Hk.
Qed.

(** C7: for a stored extraction, the [total_items] of the response is the
    [item_count] of the extracted data: per category, the length of the
    payload when it is a list and 1 otherwise, summed.  The handler's sum
    gives 4 on [{A: [1,2,3], B: "x"}], an empty list adds nothing, and the
    empty mapping gives 0. *)
Theorem total_items_is_item_count (request : GAMExtractRequest CT) st :
  er_success (extraction_result env request st) = true ∨
    er_data (extraction_result env request st) ≠ [] →
  (∃ resp st',
     extract_gam_config env request st = (Return resp, st') ∧
     total_items resp = item_count (er_data (extraction_result env request st))) ∧
  count_items [("A", PList [PInt 1; PInt 2; PInt 3]); ("B", PStr "x")] = 4 ∧
  (∀ k data, count_items ((k, PList []) :: data) = count_items data) ∧
  count_items [] = 0.
Proof.
  intros Hok. split; [|split; [done|split; [|done]]].
  - rewrite (extract_gam_config_stored _ _ Hok).
    eexists _, _. split; [done|]. simpl. apply count_items_item_count.
  - intros k data. by rewrite !count_items_item_count.
Qed.

(** C8: the configuration stored by an extraction, and the one stored by
    the rescan after a remediation, is a new row whose [config_type] is the
    requested type when exactly one type was requested and [OTHER] when the
    number of requested types is not one.  For the rescan the requested
    types are those of [config_types_to_extract]. *)
Theorem stored_config_type_single_or_other :
  (∀ (request : GAMExtractRequest CT) st,
     er_success (extraction_result env request st) = true ∨
       er_data (extraction_result env request st) ≠ [] →
     ∃ resp st' cfg,
       extract_gam_config env request st = (Return resp, st') ∧
       configurations (st_db st) !! x_configuration_id resp = None ∧
       configurations (st_db st') !! x_configuration_id resp = Some cfg ∧
       (∀ t, config_types request = [t] → cfg_config_type cfg = t) ∧
       (length (config_types request) ≠ 1%nat → cfg_config_type cfg = OTHER)) ∧
  (∀ request finding config args st,
     passes_lookup (st_db st) request finding config →
     passes_validation request args →
     auto_rescan request = true →
     gr_success (command_result env args st) = true →
     er_success (rescan_result env request args st) = true →
     ∃ resp st' i cfg,
       execute_remediation env request st = (Return resp, st') ∧
       new_configuration_id resp = Some i ∧
       configurations (st_db st) !! i = None ∧
       configurations (st_db st') !! i = Some cfg ∧
       (∀ t, config_types_to_extract request = [t] → cfg_config_type cfg = t) ∧
       (length (config_types_to_extract request) ≠ 1%nat →
        cfg_config_type cfg = OTHER)).
Proof.
  split.
  - intros request st Hok. rewrite (extract_gam_config_stored _ _ Hok).
    eexists _, _, _. split; [done|]. simpl.
    split; [apply next_id_fresh|]. split; [apply lookup_insert_eq|].
    apply single_or_other_spec.
  - intros request finding config args st Hl Hv Ha Hs Hx.
    rewrite (execute_remediation_rescanned _ _ _ _ _ Hl Hv Ha Hs Hx).
    eexists _, _, _, _. split; [done|]. simpl. split; [done|].
    split; [apply next_id_fresh|]. split; [apply lookup_insert_eq|].
    apply single_or_other_spec.
Qed.

End Properties.

(** * The properties on the sample deployment *)

Lemma sample_passes_lookup action params flag :
  passes_lookup sample_db (sample_request action params flag)
    sample_finding sample_config.
Proof. split; reflexivity. Qed.

Lemma enforce_passes_validation : passes_validation enforce_request enforce_command.
Proof. by eapply valid_enforce_2fa. Qed.

(** The end-to-end scenarios of the specification: Finding 7 ("No 2FA")
    of Configuration 3, remediated by [enforce_2fa] with a rescan. *)
Example scenario_command_succeeds :
  ∃ resp st',
    execute_remediation (sample_env true true) enforce_request sample_state
      = (Return resp, st') ∧
    success resp = true ∧ finding_resolved resp = true ∧
    new_configuration_id resp = Some 4 ∧
    security_score_before resp = Some 75 ∧ security_score_after resp = Some 100.
Proof. eexists _, _. split; [vm_compute; reflexivity|]. by repeat split. Qed.

Example scenario_command_fails :
  ∃ resp st',
    execute_remediation (sample_env false true) enforce_request sample_state
      = (Return resp, st') ∧
    success resp = false ∧ finding_resolved resp = false ∧
    new_configuration_id resp = None ∧ security_score_after resp = None.
Proof. eexists _, _. split; [vm_compute; reflexivity|]. by repeat split. Qed.

(** Equality of Python values: a dict is equal to a reordering of itself,
    [True] is equal to [1], and a string is not equal to a number. *)
Example py_eq_samples :
  py_eq (PDict [("a", PInt 1); ("b", PList [PStr "x"])])
        (PDict [("b", PList [PStr "x"]); ("a", PBool true)]) = true ∧
  py_eq (PStr "1") (PInt 1) = false ∧
  py_eq (PDict [("user", PStr "a@x.com")]) (PDict [("user", PStr "A@x.com")]) = false.
Proof. by repeat split. Qed.

Lemma command_failure_is_terminal_witness :
  ∃ resp st',
    execute_remediation (sample_env false true) enforce_request sample_state
      = (Return resp, st') ∧
    success resp = false ∧
    message resp = "Remediation failed: " +:+
      str_of_optional
        (gr_error (command_result (sample_env false true) enforce_command sample_state)) ∧
    gam_output resp =
      gr_error (command_result (sample_env false true) enforce_command sample_state) ∧
    new_configuration_id resp = None ∧
    security_score_after resp = None ∧
    finding_resolved resp = false ∧
    st_db st' = st_db sample_state ∧
    st_trace st' = (st_trace sample_state ++ [EvRunGam enforce_command])%list.
Proof.
  apply (command_failure_is_terminal (sample_env false true) enforce_request
           sample_finding sample_config enforce_command sample_state).
  - split; reflexivity.
  - eapply valid_enforce_2fa; reflexivity.
  - reflexivity.
Defined.


Lemma omitted_parameters_raise_attribute_error_witness :
  (∃ e, execute_remediation (sample_env true true)
          (sample_request "revoke_oauth_token" None true) sample_state
          = (Raise e, sample_state) ∧
        ∀ detail, e ≠ HTTPException 400 detail) ∧
  (∀ finding config,
     passes_lookup (st_db sample_state)
       (sample_request "revoke_oauth_token" None true) finding config →
     execute_remediation (sample_env true true)
       (sample_request "revoke_oauth_token" None true) sample_state
       = (Raise (AttributeError "'NoneType' object has no attribute 'get'"),
          sample_state)).
Proof.
  apply (omitted_parameters_raise_attribute_error (sample_env true true)
           (sample_request "revoke_oauth_token" None true) sample_state).
  - reflexivity.
  - right. reflexivity.
Defined.

Lemma failed_rescan_is_silent_witness :
  ∃ st',
    execute_remediation (sample_env true false) enforce_request sample_state =
      (Return {| success := true;
                 message := "Remediation executed successfully";
                 resp_finding_id := 7;
                 action_executed := "enforce_2fa";
                 gam_output := Some "updated";
                 new_configuration_id := None;
                 security_score_before := Some 75;
                 security_score_after := None;
                 finding_resolved := false |}, st') ∧
    st_db st' = sample_db ∧
    st_trace st' = [EvRunGam enforce_command; EvExtractAll [ST_USER]].
Proof.
  assert (passes_lookup (st_db sample_state) enforce_request
            sample_finding sample_config) as Hl by (split; reflexivity).
  assert (passes_validation enforce_request enforce_command) as Hv
    by (eapply valid_enforce_2fa; reflexivity).
  pose proof (failed_rescan_is_silent (sample_env true false) enforce_request
                sample_finding sample_config enforce_command sample_state
                Hl Hv eq_refl eq_refl eq_refl) as Hw.
  vm_compute in Hw |- *. exact Hw.
Defined.

Lemma total_extraction_failure_is_500_witness :
  ∃ st',
    extract_gam_config (sample_env true false) sample_extract_request sample_state =
      (Raise (HTTPException 500
                "Failed to extract configurations: user: timeout, group: unsupported"),
       st') ∧
    st_db st' = sample_db.
Proof.
  apply (total_extraction_failure_is_500 (sample_env true false)
           sample_extract_request sample_state).
  - reflexivity.
  - reflexivity.
Defined.

Lemma partial_extraction_reports_failed_types_witness :
  ∃ resp st' failed,
    extract_gam_config (sample_env true true) sample_extract_request sample_state
      = (Return resp, st') ∧
    x_success resp = true ∧
    (∀ t, t ∈ failed ↔
          t ∈ [ST_USER; ST_GROUP] ∧
          ct_value t ∉ dict_keys (er_data (extraction_result (sample_env true true)
                                             sample_extract_request sample_state))) ∧
    failed_types resp = match failed with [] => None | _ :: _ => Some failed end.
Proof.
  apply (partial_extraction_reports_failed_types (sample_env true true)
           sample_extract_request sample_state).
  exists ST_USER. split.
  - constructor.
  - constructor.
Defined.

Lemma total_items_is_item_count_witness :
  (∃ resp st',
     extract_gam_config (sample_env true true) sample_extract_request sample_state
       = (Return resp, st') ∧
     total_items resp = 1) ∧
  count_items [("A", PList [PInt 1; PInt 2; PInt 3]); ("B", PStr "x")] = 4 ∧
  (∀ k data, count_items ((k, PList []) :: data) = count_items data) ∧
  count_items [] = 0.
Proof.
  apply (total_items_is_item_count (sample_env true true)
           sample_extract_request sample_state).
  left. reflexivity.
Defined.

Lemma stored_config_type_single_or_other_witness :
  (∃ resp st' cfg,
     extract_gam_config (sample_env true true) sample_extract_request sample_state
       = (Return resp, st') ∧
     configurations sample_db !! x_configuration_id resp = None ∧
     configurations (st_db st') !! x_configuration_id resp = Some cfg ∧
     cfg_config_type cfg = ST_OTHER) ∧
  (∃ resp st' i cfg,
     execute_remediation (sample_env true true) enforce_request sample_state
       = (Return resp, st') ∧
     new_configuration_id resp = Some i ∧
     configurations sample_db !! i = None ∧
     configurations (st_db st') !! i = Some cfg ∧
     cfg_config_type cfg = ST_USER).
Proof.
  destruct (stored_config_type_single_or_other (sample_env true true)) as [Hx Hr].
  split.
  - destruct (Hx sample_extract_request sample_state) as (resp & st' & cfg & E & F & L & _ & O).
    { left. reflexivity. }
    exists resp, st', cfg. repeat split; try assumption.
    apply O. simpl. lia.
  - destruct (Hr enforce_request sample_finding sample_config enforce_command sample_state)
      as (resp & st' & i & cfg & E & N & F & L & S & _).
    { split; reflexivity. }
    { eapply valid_enforce_2fa; reflexivity. }
    { reflexivity. }
    { reflexivity. }
    { reflexivity. }
    exists resp, st', i, cfg. repeat split; try assumption.
    apply S. reflexivity.
Defined.


(** C9, as stated, fails when the finding is unknown: the request names a
    known action and carries no parameters, yet nothing is raised by an
    attribute access; the answer is the 404 of the lookup. *)
Lemma omitted_parameters_unknown_finding_is_404 :
  known_action (action_id (stray_request None)) ∧
  parameters (stray_request None) = None ∧
  execute_remediation (sample_env true true) (stray_request None) sample_state
    = (Raise (HTTPException 404 "Security finding not found"), sample_state) ∧
  ∀ msg st',
    execute_remediation (sample_env true true) (stray_request None) sample_state
      ≠ (Raise (AttributeError msg), st').
Proof.
  split; [by left|]. split; [done|]. split; [reflexivity|].
  intros msg st' E. vm_compute in E. discriminate E.
Qed.

(** * Further properties of the handlers *)

Section MoreProperties.
Context {CT W Err : Type} `{ConfigTypeEnum CT}.
Variable env : Env CT W Err.
Implicit Types (st : HState CT W Err) (request : RemediationRequest).
Implicit Types (finding : SecurityAnalysis) (config : Configuration CT Err).

(** ** Every run of [execute_remediation] *)

Lemma dispatch_action_falsy request d st :
  parameters request = Some d →
  falsy_required_parameter (action_id request) d →
  dispatch_action env request st =
    (Raise (HTTPException 400 (missing_parameter_detail (action_id request))), st).
Proof.
  intros Hp [[Ha Hu] | [Ha Hm]];
    unfold dispatch_action, parameters_get, missing_parameter_detail;
    rewrite Ha, Hp; simpl; unfold_monad.
  - by rewrite Hu.
  - destruct Hm as [Hu | Hc].
    + by rewrite Hu.
    + rewrite Hc. simpl. by rewrite orb_true_r.
Qed.

(** A request passes validation, or names no known action, or carries no
    parameters, or has a required parameter that counts as false. *)
Lemma validation_cases request :
  (∃ args, passes_validation request args) ∨
  ¬ known_action (action_id request) ∨
  (known_action (action_id request) ∧ parameters request = None) ∨
  (∃ d, parameters request = Some d ∧
        falsy_required_parameter (action_id request) d).
Proof.
  destruct (String.eqb_spec (action_id request) "enforce_2fa") as [Ha|Ha].
  - destruct (parameters request) as [d|] eqn:Hp; [|right; right; left; split; [by left|done]].
    destruct (py_truthy (dict_get "user_email" d)) eqn:Ht.
    + left. unfold dict_get in Ht.
      destruct (dict_lookup "user_email" d) as [u|] eqn:Hu; [|done].
      eexists. by eapply valid_enforce_2fa.
    + right; right; right. exists d. split; [done|]. left. by split.
  - destruct (String.eqb_spec (action_id request) "revoke_oauth_token") as [Hb|Hb].
    + destruct (parameters request) as [d|] eqn:Hp;
        [|right; right; left; split; [by right|done]].
      destruct (py_truthy (dict_get "user" d)) eqn:Htu;
        [destruct (py_truthy (dict_get "client_id" d)) eqn:Htc|].
      * left. unfold dict_get in Htu, Htc.
        destruct (dict_lookup "user" d) as [u|] eqn:Hu; [|done].
        destruct (dict_lookup "client_id" d) as [c|] eqn:Hc; [|done].
        eexists. by eapply valid_revoke_oauth_token.
      * right; right; right. exists d. split; [done|]. right. split; [done|by right].
      * right; right; right. exists d. split; [done|]. right. split; [done|by left].
    + right; left. by intros [?|?].
Qed.

Lemma missing_parameter_detail_cases (a : string) :
  known_action a →
  missing_parameter_detail a = "user_email parameter required" ∨
  missing_parameter_detail a = "user and client_id parameters required".
Proof. intros [->| ->]; [by left|by right]. Qed.

(** What the dispatch does to a request that does not pass validation. *)
Lemma dispatch_action_rejects request :
  (¬ ∃ args, passes_validation request args) →
  ∃ e, (∀ st, dispatch_action env request st = (Raise e, st)) ∧
       remediation_error request e.
Proof.
  intros Hn.
  destruct (validation_cases request) as [Hv|[Hk|[[Hk Hp]|(d & Hp & Hf)]]]; [done|..].
  - eexists. split; [intros st; by apply dispatch_action_unknown|].
    unfold remediation_error. tauto.
  - eexists. split; [intros st; by apply dispatch_action_no_parameters|].
    unfold remediation_error. tauto.
  - eexists. split; [intros st; by apply (dispatch_action_falsy request d)|].
    assert (known_action (action_id request)) as Hk.
    { destruct Hf as [[? _]|[? _]]; [by left|by right]. }
    unfold remediation_error.
    destruct (missing_parameter_detail_cases _ Hk) as [->| ->]; tauto.
Qed.

Lemma rescan_off request config finding st :
  auto_rescan request = false →
  rescan env request config finding st = (Return (None, None, false), st).
Proof. intros Ha. unfold rescan. by rewrite Ha. Qed.

(** The five ways a run of the handler can go. *)
Lemma execute_remediation_cases request st :
  (∃ e, execute_remediation env request st = (Raise e, st) ∧
        remediation_error request e ∧
        ¬ (∃ finding config args,
             passes_lookup (st_db st) request finding config ∧
             passes_validation request args)) ∨
  (∃ finding config args,
     passes_lookup (st_db st) request finding config ∧
     passes_validation request args ∧
     let r := command_result env args st in
     let before := score_before env st finding in
     (gr_success r = false ∧
      execute_remediation env request st =
        (Return (failure_response request r), state_after_command env args st)) ∨
     (gr_success r = true ∧ auto_rescan request = false ∧
      execute_remediation env request st =
        (Return (success_response request r before None None false),
         state_after_command env args st)) ∨
     (gr_success r = true ∧ auto_rescan request = true ∧
      er_success (rescan_result env request args st) = false ∧
      execute_remediation env request st =
        (Return (success_response request r before None None false),
         state_after_failed_rescan env request args st)) ∨
     (gr_success r = true ∧ auto_rescan request = true ∧
      er_success (rescan_result env request args st) = true ∧
      execute_remediation env request st =
        (Return (success_response request r before
                   (Some (next_id (configurations (st_db st))))
                   (Some (get_security_score env
                            (fd_severity <$> new_findings env request args st)))
                   (negb (existsb (same_finding finding)
                            (new_findings env request args st)))),
         state_after_rescan env request finding config args st))).
Proof.
  destruct (security_analyses (st_db st) !! finding_id request) as [finding|] eqn:Hf.
  2:{ left. eexists. split; [by apply execute_remediation_finding_not_found|].
      split; [unfold remediation_error; tauto|].
      intros (f & c & a & [Hf' _] & _). congruence. }
  destruct (configurations (st_db st) !! sa_configuration_id finding)
    as [config|] eqn:Hc.
  2:{ left. eexists.
      split; [by apply (execute_remediation_configuration_not_found _ request finding)|].
      split; [unfold remediation_error; tauto|].
      intros (f & c & a & [Hf' Hc'] & _). congruence. }
  assert (passes_lookup (st_db st) request finding config) as Hl by done.
  destruct (validation_cases request) as [[args Hv]|Hrej].
  - right. exists finding, config, args. split; [done|]. split; [done|].
    rewrite (execute_remediation_after_command env _ _ _ _ _ Hl Hv).
    unfold state_after_command, state_after_failed_rescan, state_after_rescan,
      new_findings, world_after_rescan, rescan_result, world_after_command,
      command_result, run_gam.
    destruct (run_gam_command env args (st_world st)) as [r w]. cbn [fst snd].
    destruct (gr_success r) eqn:Hs; cbn [negb]; [|by left].
    right. destruct (auto_rescan request) eqn:Ha.
    + right.
      destruct (passes_validation_types _ _ Hv) as [Ht|Ht];
        rewrite (rescan_on env _ _ _ _ _ _ Ha Ht); rewrite Ht; cbn [st_world st_db st_trace];
        destruct (er_success (extract_all_configs env _ w).1) eqn:Hx;
        [right|left|right|left]; (split; [done|]); (split; [done|]); (split; [done|]);
        cbn [st_world st_db st_trace]; by rewrite <- app_assoc.
    + left. split; [done|]. split; [done|].
      by rewrite (rescan_off _ _ _ _ Ha).
  - left.
    assert (¬ ∃ args, passes_validation request args) as Hn.
    { intros [args Hv]. destruct Hv as [? d u Ha Hp Hu Ht | ? d u c Ha Hp Hu Htu Hcl Htc].
      - destruct Hrej as [Hk|[[_ Hp']|(d' & Hp' & [[_ Hf']|[Ha' _]])]].
        + destruct Hk. by left.
        + congruence.
        + assert (d' = d) as -> by congruence.
          unfold dict_get in Hf'. rewrite Hu in Hf'. congruence.
        + congruence.
      - destruct Hrej as [Hk|[[_ Hp']|(d' & Hp' & [[Ha' _]|[_ Hf']])]].
        + destruct Hk. by right.
        + congruence.
        + congruence.
        + assert (d' = d) as -> by congruence.
          unfold dict_get in Hf'. rewrite Hu, Hcl in Hf'.
          destruct Hf'; congruence. }
    destruct (dispatch_action_rejects request Hn) as (e & He & Hk).
    exists e. split; [by apply (execute_remediation_dispatch_raises env request finding config)|].
    split; [done|]. intros (f & c & a & _ & Hv). apply Hn. by exists a.
Qed.

(** X1: every [HTTPException] of [execute_remediation] is raised before
    anything is done.  A run that ends in one leaves the state (store,
    domain, trace of service calls) as it found it, and the exception is
    one of five: the two 404s of the lookups and the three 400s of the
    dispatch. *)
Theorem http_errors_have_no_effect request st code detail st' :
  execute_remediation env request st = (Raise (HTTPException code detail), st') →
  st' = st ∧
  ((code = 404 ∧ detail = "Security finding not found") ∨
   (code = 404 ∧ detail = "Configuration not found") ∨
   (code = 400 ∧ detail = "user_email parameter required") ∨
   (code = 400 ∧ detail = "user and client_id parameters required") ∨
   (code = 400 ∧ detail = "Unknown action_id: " +:+ action_id request)).
Proof.
  intros Hrun.
  destruct (execute_remediation_cases request st)
    as [(e0 & E & Hk & _) | (f & c & a & _ & _ & [[_ E]|[(_ & _ & E)|[(_ & _ & _ & E)|(_ & _ & _ & E)]]])];
    rewrite E in Hrun; [|done..].
  injection Hrun as -> <-. split; [done|].
  destruct Hk as [[= <- <-]|[[= <- <-]|[[= <- <-]|[[= <- <-]|[[= <- <-]|Hk]]]]];
    [tauto..|done].
Qed.

(** X2: a run that returns a response has passed lookup and validation and
    has run the command of the action exactly once, before anything else;
    [success] is the command's own success flag, [gam_output] is the
    command's data on success and its error otherwise, and an extraction
    follows only when the command succeeded and a rescan was asked for. *)
Theorem remediation_response_follows_one_command request st resp st' :
  execute_remediation env request st = (Return resp, st') →
  ∃ finding config args,
    passes_lookup (st_db st) request finding config ∧
    passes_validation request args ∧
    success resp = gr_success (command_result env args st) ∧
    gam_output resp =
      (if gr_success (command_result env args st)
       then gr_data (command_result env args st)
       else gr_error (command_result env args st)) ∧
    resp_finding_id resp = finding_id request ∧
    action_executed resp = action_id request ∧
    (st_trace st' = (st_trace st ++ [EvRunGam args])%list ∨
     (success resp = true ∧ auto_rescan request = true ∧
      st_trace st' =
        (st_trace st ++
         [EvRunGam args; EvExtractAll (config_types_to_extract request)])%list)).
Proof.
  intros Hrun.
  destruct (execute_remediation_cases request st)
    as [(e0 & E & _) | (f & c & a & Hl & Hv & Hcase)];
    [rewrite E in Hrun; done|].
  exists f, c, a. split; [done|]. split; [done|].
  destruct Hcase as [[Hs E]|[(Hs & Ha & E)|[(Hs & Ha & Hx & E)|(Hs & Ha & Hx & E)]]];
    rewrite E in Hrun; injection Hrun as <- <-; rewrite Hs; simpl;
    repeat (split; [done|]); auto.
Qed.

(** X3: when the command succeeds and no rescan is asked for
    ([auto_rescan] false), nothing is extracted and nothing is stored: the
    response has the plain success message, the score before, null
    [new_configuration_id] and [security_score_after] and
    [finding_resolved] false, and the command is the only service call. *)
Theorem no_rescan_unless_requested request finding config args st :
  passes_lookup (st_db st) request finding config →
  passes_validation request args →
  gr_success (command_result env args st) = true →
  auto_rescan request = false →
  ∃ resp st',
    execute_remediation env request st = (Return resp, st') ∧
    success resp = true ∧
    message resp = "Remediation executed successfully" ∧
    security_score_before resp = Some (score_before env st finding) ∧
    new_configuration_id resp = None ∧
    security_score_after resp = None ∧
    finding_resolved resp = false ∧
    st_db st' = st_db st ∧
    st_trace st' = (st_trace st ++ [EvRunGam args])%list.
Proof.
  intros Hl Hv Hs Ha.
  rewrite (execute_remediation_after_command env _ _ _ _ _ Hl Hv).
  unfold run_gam. unfold command_result in Hs.
  destruct (run_gam_command env args (st_world st)) as [r w]. simpl in *.
  rewrite Hs. simpl. rewrite (rescan_off _ _ _ _ Ha).
  eexists _, _. split; [done|]. by repeat split.
Qed.

(** X4: a required parameter that is present with a value Python counts as
    false (an empty string, [0], [False], [None], an empty list or dict) is
    treated as missing: once lookup has passed the handler answers 400 with
    the missing-parameter detail and runs no command. *)
Theorem falsy_parameter_is_rejected request d finding config st :
  passes_lookup (st_db st) request finding config →
  parameters request = Some d →
  falsy_required_parameter (action_id request) d →
  execute_remediation env request st =
    (Raise (HTTPException 400 (missing_parameter_detail (action_id request))), st).
Proof.
  intros Hl Hp Hf.
  apply (execute_remediation_dispatch_raises env request finding config); [done|].
  by apply (dispatch_action_falsy request d).
Qed.

(** X5: every response of [execute_remediation] is coherent: the score
    before is present exactly on success; a new configuration id and a
    score after come together, and only on success of a requested rescan;
    [finding_resolved] is true only with a new configuration; the message
    ends with "and verified" exactly when [finding_resolved] is true, and
    starts with "Remediation failed" exactly on failure. *)
Theorem remediation_response_is_coherent request st resp st' :
  execute_remediation env request st = (Return resp, st') →
  (success resp = true ↔ is_Some (security_score_before resp)) ∧
  (is_Some (new_configuration_id resp) ↔ is_Some (security_score_after resp)) ∧
  (is_Some (new_configuration_id resp) →
     success resp = true ∧ auto_rescan request = true) ∧
  (finding_resolved resp = true → is_Some (new_configuration_id resp)) ∧
  (message resp =
     if success resp then
       if finding_resolved resp then "Remediation executed successfully and verified"
       else "Remediation executed successfully"
     else "Remediation failed: " +:+ str_of_optional (gam_output resp)).
Proof.
  intros Hrun.
  destruct (execute_remediation_cases request st)
    as [(e0 & E & _) | (f & c & a & Hl & Hv & Hcase)];
    [rewrite E in Hrun; done|].
  destruct Hcase as [[Hs E]|[(Hs & Ha & E)|[(Hs & Ha & Hx & E)|(Hs & Ha & Hx & E)]]];
    rewrite E in Hrun; injection Hrun as <- <-; simpl.
  - split; [split; [done|by intros [? ?]]|].
    split; [split; by intros [? ?]|].
    split; [by intros [? ?]|]. by split.
  - split; [split; [by eexists|done]|].
    split; [split; by intros [? ?]|].
    split; [by intros [? ?]|]. by split.
  - split; [split; [by eexists|done]|].
    split; [split; by intros [? ?]|].
    split; [by intros [? ?]|]. by split.
  - split; [split; [by eexists|done]|].
    split; [split; by eexists|].
    split; [done|]. split; [by eexists|].
    by destruct (negb _).
Qed.

(** ** Rows added to the store *)

Lemma insert_analyses_keeps (rows : list SecurityAnalysis)
    (table : gmap Z SecurityAnalysis) (k : Z) (r : SecurityAnalysis) :
  table !! k = Some r → insert_analyses rows table !! k = Some r.
Proof.
  revert table. induction rows as [|row rows IH]; intros table Hk; [done|].
  apply IH. rewrite lookup_insert_ne; [done|].
  intros E. rewrite <- E, next_id_fresh in Hk. done.
Qed.

Lemma insert_analyses_origin (rows : list SecurityAnalysis)
    (table : gmap Z SecurityAnalysis) (k : Z) (r : SecurityAnalysis) :
  insert_analyses rows table !! k = Some r → table !! k = Some r ∨ r ∈ rows.
Proof.
  revert table. induction rows as [|row rows IH]; intros table Hk; [by left|].
  destruct (IH _ Hk) as [Hin|Hin].
  - destruct (decide (next_id table = k)) as [E|E].
    + rewrite E, lookup_insert_eq in Hin. injection Hin as ->.
      right. apply elem_of_cons. by left.
    + rewrite lookup_insert_ne in Hin by done. by left.
  - right. apply elem_of_cons. by right.
Qed.

Lemma insert_analyses_stores (rows : list SecurityAnalysis)
    (table : gmap Z SecurityAnalysis) (r : SecurityAnalysis) :
  r ∈ rows →
  ∃ k, table !! k = None ∧ insert_analyses rows table !! k = Some r.
Proof.
  revert table. induction rows as [|row rows IH]; intros table Hin.
  - by apply elem_of_nil in Hin.
  - apply elem_of_cons in Hin as [->|Hin].
    + exists (next_id table). split; [apply next_id_fresh|].
      change (insert_analyses (row :: rows) table)
        with (insert_analyses rows (<[next_id table := row]> table)).
      apply insert_analyses_keeps. apply lookup_insert_eq.
    + destruct (IH (<[next_id table := row]> table) Hin) as (k & Hnone & Hsome).
      exists k. split; [|done].
      by apply lookup_insert_None in Hnone as [? _].
Qed.

Lemma insert_analyses_size (rows : list SecurityAnalysis)
    (table : gmap Z SecurityAnalysis) :
  size (insert_analyses rows table) = (size table + length rows)%nat.
Proof.
  revert table. induction rows as [|row rows IH]; intros table; simpl; [lia|].
  change (insert_analyses (row :: rows) table)
    with (insert_analyses rows (<[next_id table := row]> table)).
  rewrite IH, map_size_insert_None by apply next_id_fresh. lia.
Qed.

(** X6: [execute_remediation] only ever adds rows: whatever the request and
    however the run ends, every configuration and every finding that was in
    the store is still there, unchanged. *)
Theorem remediation_keeps_existing_rows request st :
  (∀ k c, configurations (st_db st) !! k = Some c →
     configurations (st_db (execute_remediation env request st).2) !! k = Some c) ∧
  (∀ k r, security_analyses (st_db st) !! k = Some r →
     security_analyses (st_db (execute_remediation env request st).2) !! k = Some r).
Proof.
  destruct (execute_remediation_cases request st)
    as [(e0 & E & _) | (f & c & a & _ & _ & [[_ E]|[(_ & _ & E)|[(_ & _ & _ & E)|(_ & _ & _ & E)]]])];
    rewrite E; simpl; [done..|].
  split.
  - intros k c' Hk. rewrite lookup_insert_ne; [done|].
    intros E'. rewrite <- E', next_id_fresh in Hk. done.
  - intros k r Hk. by apply insert_analyses_keeps.
Qed.

(** X7: after a successful rescan the store holds one new configuration,
    which is never a template and carries no extraction errors whatever the
    extraction reported, and one new row per finding of the new analysis;
    every row added is linked to the new configuration and has no
    remediation actions, even when the analyzer supplied some. *)
Theorem rescan_findings_are_stored request finding config args st :
  passes_lookup (st_db st) request finding config →
  passes_validation request args →
  auto_rescan request = true →
  gr_success (command_result env args st) = true →
  er_success (rescan_result env request args st) = true →
  let st' := (execute_remediation env request st).2 in
  let i := next_id (configurations (st_db st)) in
  let before := security_analyses (st_db st) in
  let after := security_analyses (st_db st') in
  (∃ cfg, configurations (st_db st') !! i = Some cfg ∧
          cfg_config_data cfg = er_data (rescan_result env request args st) ∧
          cfg_is_template cfg = false ∧
          cfg_extraction_errors cfg = None) ∧
  size (configurations (st_db st')) = S (size (configurations (st_db st))) ∧
  size after = (size before + length (new_findings env request args st))%nat ∧
  (∀ f, f ∈ new_findings env request args st →
     ∃ k, before !! k = None ∧ after !! k = Some (rescan_row i f)) ∧
  (∀ k r, before !! k = None → after !! k = Some r →
     sa_configuration_id r = i ∧ sa_remediation_actions r = PNone ∧
     ∃ f, f ∈ new_findings env request args st ∧ r = rescan_row i f).
Proof.
  intros Hl Hv Ha Hs Hx.
  rewrite (execute_remediation_rescanned env _ _ _ _ _ Hl Hv Ha Hs Hx). simpl.
  split; [eexists; split; [apply lookup_insert_eq|done]|].
  split; [by rewrite map_size_insert_None by apply next_id_fresh|].
  split; [by rewrite insert_analyses_size, length_fmap|].
  split.
  - intros f Hin. apply insert_analyses_stores.
    apply list_elem_of_fmap. by exists f.
  - intros k r Hnone Hsome.
    destruct (insert_analyses_origin _ _ _ _ Hsome) as [Hold|Hin]; [congruence|].
    apply list_elem_of_fmap in Hin as (f & -> & Hin).
    split; [done|]. split; [done|]. by exists f.
Qed.

(** X8: lookup comes before everything else.  For a finding whose
    configuration row is missing, the handler answers 404 "Configuration not
    found" whatever the action and the parameters are (an unknown action, no
    parameters at all), and does nothing else. *)
Theorem missing_configuration_is_404 request finding st :
  security_analyses (st_db st) !! finding_id request = Some finding →
  configurations (st_db st) !! sa_configuration_id finding = None →
  execute_remediation env request st =
    (Raise (HTTPException 404 "Configuration not found"), st).
Proof.
  intros Hf Hc.
  unfold execute_remediation, db_get_finding, db_get_configuration. unfold_monad.
  by rewrite Hf, Hc.
Qed.

(** ** Every run of [extract_gam_config] *)

(** The two ways a run of the extraction handler can go. *)
Lemma extract_gam_config_cases (request : GAMExtractRequest CT) st :
  let x := extraction_result env request st in
  (er_success x = false ∧ er_data x = []) ∨
  (er_success x = true ∨ er_data x ≠ []).
Proof.
  simpl. destruct (er_success (extraction_result env request st)); [right; by left|].
  destruct (er_data (extraction_result env request st)); [by left|right; by right].
Qed.

(** X9: [extract_gam_config] calls the extraction service exactly once and
    never runs a GAM command itself; it raises only in the case of total
    failure (the result says [success = false] and the data is empty), and a
    result that says [success = false] but brings data is stored and
    answered with [success = true] like any other. *)
Theorem extraction_fails_only_on_total_failure (request : GAMExtractRequest CT) st :
  let x := extraction_result env request st in
  let run := extract_gam_config env request st in
  st_trace run.2 = (st_trace st ++ [EvExtractAll (config_types request)])%list ∧
  st_world run.2 = world_after_extraction env request st ∧
  ((∃ e, run.1 = Raise e) ↔ (er_success x = false ∧ er_data x = [])) ∧
  (∀ resp, run.1 = Return resp →
     x_success resp = true ∧ extracted_types resp = config_types request ∧
     x_errors resp = none_if_empty (default [] (er_errors x)) ∧
     configurations (st_db run.2) !! x_configuration_id resp =
       Some (extracted_config request (er_data x) (default [] (er_errors x))
               (failed_config_types (config_types request) (er_data x)))).
Proof.
  simpl. destruct (extract_gam_config_cases request st) as [[Hs Hd]|Hok].
  - rewrite (extract_gam_config_failed env _ _ Hs Hd). simpl.
    split; [done|]. split; [done|]. split; [|done].
    split; [done|by eexists].
  - rewrite (extract_gam_config_stored env _ _ Hok). simpl.
    split; [done|]. split; [done|]. split.
    + split; [by intros [? ?]|]. intros [Hs Hd]. destruct Hok; congruence.
    + intros resp [= <-]. simpl. repeat (split; [done|]). apply lookup_insert_eq.
Qed.

(** X10: [extract_gam_config] only ever adds rows: every configuration and
    every finding that was in the store is still there, unchanged, however
    the run ends. *)
Theorem extraction_keeps_existing_rows (request : GAMExtractRequest CT) st :
  (∀ k c, configurations (st_db st) !! k = Some c →
     configurations (st_db (extract_gam_config env request st).2) !! k = Some c) ∧
  (∀ k r, security_analyses (st_db st) !! k = Some r →
     security_analyses (st_db (extract_gam_config env request st).2) !! k = Some r).
Proof.
  destruct (extract_gam_config_cases request st) as [[Hs Hd]|Hok].
  - by rewrite (extract_gam_config_failed env _ _ Hs Hd).
  - rewrite (extract_gam_config_stored env _ _ Hok). simpl. split.
    + intros k c Hk. rewrite lookup_insert_ne; [done|].
      intros E. rewrite <- E, next_id_fresh in Hk. done.
    + intros k r Hk. by apply insert_analyses_keeps.
Qed.

(** X11: what an extraction stores can be remediated.  After a stored
    extraction, every finding of the analyzer has a new row, and every new
    row belongs to the new configuration and keeps the analyzer's
    remediation actions; so a remediation request that names a new row
    passes lookup, with that row and the new configuration. *)
Theorem extracted_findings_pass_lookup (request : GAMExtractRequest CT) st :
  er_success (extraction_result env request st) = true ∨
    er_data (extraction_result env request st) ≠ [] →
  let x := extraction_result env request st in
  let st' := (extract_gam_config env request st).2 in
  let i := next_id (configurations (st_db st)) in
  let findings :=
    analyze_configuration env (er_data x) (single_or_other (config_types request)) in
  ∃ cfg,
    (extract_gam_config env request st).1 =
      Return (extract_response request (default [] (er_errors x))
                (count_items (er_data x))
                (failed_config_types (config_types request) (er_data x)) i) ∧
    configurations (st_db st') !! i = Some cfg ∧
    cfg_config_data cfg = er_data x ∧
    cfg_is_template cfg = save_as_template request ∧
    size (security_analyses (st_db st')) =
      (size (security_analyses (st_db st)) + length findings)%nat ∧
    (∀ f, f ∈ findings →
       ∃ k, security_analyses (st_db st) !! k = None ∧
            security_analyses (st_db st') !! k = Some (extract_row i f)) ∧
    (∀ k r, security_analyses (st_db st) !! k = None →
            security_analyses (st_db st') !! k = Some r →
       (∃ f, f ∈ findings ∧ r = extract_row i f ∧
             sa_remediation_actions r = draft_get (fd_remediation_actions f)) ∧
       ∀ action params flag,
         passes_lookup (st_db st')
           {| finding_id := k; action_id := action; parameters := params;
              auto_rescan := flag |} r cfg).
Proof.
  intros Hok. simpl.
  rewrite (extract_gam_config_stored env _ _ Hok). simpl.
  eexists. split; [done|]. split; [apply lookup_insert_eq|].
  split; [done|]. split; [done|].
  split; [by rewrite insert_analyses_size, length_fmap|].
  split.
  - intros f Hin. apply insert_analyses_stores.
    apply list_elem_of_fmap. by exists f.
  - intros k r Hnone Hsome.
    destruct (insert_analyses_origin _ _ _ _ Hsome) as [Hold|Hin]; [congruence|].
    apply list_elem_of_fmap in Hin as (f & -> & Hin).
    split; [by exists f|].
    intros action params flag. split; simpl; [done|apply lookup_insert_eq].
Qed.

(** X12: the response of a stored extraction and the row it stored agree
    on the errors: the row's [extraction_errors] is null exactly when the
    response's [errors] is null, which is exactly when the message is the
    plain success message; when present it holds the reported errors and
    the values of the reported failed types (none when [failed_types] is
    null). *)
Theorem stored_errors_match_response (request : GAMExtractRequest CT) st :
  er_success (extraction_result env request st) = true ∨
    er_data (extraction_result env request st) ≠ [] →
  ∃ resp st' cfg,
    extract_gam_config env request st = (Return resp, st') ∧
    configurations (st_db st') !! x_configuration_id resp = Some cfg ∧
    (cfg_extraction_errors cfg = None ↔ x_errors resp = None) ∧
    (x_errors resp = None ↔
       x_message resp = "Configuration extracted successfully") ∧
    (∀ xe, cfg_extraction_errors cfg = Some xe →
       x_errors resp = Some (xe_errors xe) ∧
       xe_failed_types xe = ct_value <$> default [] (failed_types resp) ∧
       x_message resp =
         "Partially extracted (" +:+ pretty (length (xe_errors xe)) +:+ " errors)").
Proof.
  intros Hok. rewrite (extract_gam_config_stored env _ _ Hok).
  eexists _, _, _. split; [done|]. simpl. split; [apply lookup_insert_eq|].
  destruct (default [] (er_errors (extraction_result env request st)))
    as [|err errs]; simpl.
  - split; [done|]. split; [done|]. by intros xe.
  - split; [done|]. split; [split; intros E; discriminate E|].
    intros xe [= <-]. simpl. split; [done|]. split; [|done].
    by destruct (failed_config_types _ _).
Qed.

(** ** The sum of line 34-37 *)

Lemma item_count_app (d1 d2 : dict) :
  item_count (d1 ++ d2)%list = item_count d1 + item_count d2.
Proof.
  induction d1 as [|[k v] d1 IH]; [done|].
  simpl. rewrite IH. destruct v; lia.
Qed.

Lemma item_count_nonneg (d : dict) : 0 ≤ item_count d.
Proof. induction d as [|[k v] d IH]; simpl; [done|destruct v; lia]. Qed.

(** X13: the item count does not depend on the order of the categories in
    the data, adds up over the union of two mappings, is never negative,
    and on data without list payloads is the number of categories. *)
Theorem count_items_is_a_sum :
  (∀ d1 d2 : dict, d1 ≡ₚ d2 → count_items d1 = count_items d2) ∧
  (∀ d1 d2 : dict,
     count_items (d1 ++ d2)%list = count_items d1 + count_items d2) ∧
  (∀ d : dict, 0 ≤ count_items d) ∧
  (∀ d : dict, (∀ k xs, (k, PList xs) ∉ d) →
     count_items d = Z.of_nat (length d)).
Proof.
  split; [|split; [|split]].
  - intros d1 d2 Hp. rewrite !count_items_item_count.
    induction Hp as [|[k v] d1 d2 _ IH|[k1 v1] [k2 v2] d|d1 d2 d3 _ IH1 _ IH2].
    + done.
    + simpl. rewrite IH. done.
    + simpl. destruct v1, v2; lia.
    + congruence.
  - intros d1 d2. rewrite !count_items_item_count. apply item_count_app.
  - intros d. rewrite count_items_item_count. apply item_count_nonneg.
  - intros d Hd. rewrite count_items_item_count.
    induction d as [|[k v] d IH]; [done|].
    assert (item_count d = Z.of_nat (length d)) as IH'.
    { apply IH. intros k' xs Hin. apply (Hd k' xs). by apply elem_of_cons; right. }
    destruct v; simpl; rewrite ?IH'; try lia.
    exfalso. apply (Hd k xs). by apply elem_of_cons; left.
Qed.

(** ** The match of lines 142-146 *)

Lemma py_eq_list_cons (x y : pyval) (xs ys : list pyval) :
  py_eq (PList (x :: xs)) (PList (y :: ys)) = py_eq x y && py_eq (PList xs) (PList ys).
Proof. reflexivity. Qed.

Lemma unique_keys_list_cons (x : pyval) (xs : list pyval) :
  unique_keys (PList (x :: xs)) = unique_keys x && unique_keys (PList xs).
Proof. reflexivity. Qed.

Lemma py_eq_dict (a b : list (string * pyval)) :
  py_eq (PDict a) (PDict b) =
    Nat.eqb (length a) (length b) &&
    forallb (λ kv, match dict_lookup kv.1 b with
                   | Some v' => py_eq kv.2 v'
                   | None => false
                   end) a.
Proof.
  simpl. f_equal. induction a as [|[k v] a IH]; [done|].
  simpl. by rewrite IH.
Qed.

Lemma unique_keys_dict (kvs : list (string * pyval)) :
  unique_keys (PDict kvs) =
    bool_decide (NoDup kvs.*1) && forallb (λ kv, unique_keys kv.2) kvs.
Proof.
  simpl. f_equal. induction kvs as [|[k v] kvs IH]; [done|].
  simpl. by rewrite IH.
Qed.

Lemma dict_lookup_NoDup (d : list (string * pyval)) (k : string) (v : pyval) :
  NoDup d.*1 → (k, v) ∈ d → dict_lookup k d = Some v.
Proof.
  induction d as [|[k' v'] d IH]; intros Hnd Hin.
  - by apply elem_of_nil in Hin.
  - apply NoDup_cons in Hnd as [Hk' Hnd]. simpl.
    apply elem_of_cons in Hin as [[= -> ->]|Hin].
    + by rewrite String.eqb_refl.
    + destruct (String.eqb_spec k k') as [->|_]; [|by apply IH].
      destruct Hk'. apply list_elem_of_fmap. by exists (k', v).
Qed.

(** A value is equal ([==]) to itself. *)
Lemma py_eq_refl (v : pyval) : unique_keys v = true → py_eq v v = true.
Proof.
  induction v as [|b|n|s|xs IH|kvs IH] using pyval_nested_ind.
  - done.
  - intros _. by destruct b.
  - intros _. apply Z.eqb_refl.
  - intros _. apply String.eqb_refl.
  - induction IH as [|x xs Hx _ IHxs]; [done|].
    rewrite unique_keys_list_cons, py_eq_list_cons.
    intros [Hu Hus]%andb_true_iff. by rewrite Hx, IHxs.
  - rewrite unique_keys_dict, py_eq_dict.
    intros [Hnd Hall]%andb_true_iff.
    apply bool_decide_eq_true in Hnd.
    rewrite Nat.eqb_refl. simpl.
    apply forallb_forall. intros [k v] Hin.
    apply list_elem_of_In in Hin. simpl.
    rewrite (dict_lookup_NoDup _ _ _ Hnd Hin).
    rewrite Forall_forall in IH. apply (IH (k, v) Hin).
    rewrite forallb_forall in Hall.
    apply (Hall (k, v)). by apply list_elem_of_In.
Qed.

(** X14: a finding that comes back is not reported resolved.  When the
    rescan's analysis contains a finding with the title of the original
    one and the very same affected settings, the response says
    [finding_resolved = false] and carries the plain success message, while
    [success] stays true and the new configuration is stored. *)
Theorem unchanged_finding_is_not_resolved request finding config args st f :
  passes_lookup (st_db st) request finding config →
  passes_validation request args →
  auto_rescan request = true →
  gr_success (command_result env args st) = true →
  er_success (rescan_result env request args st) = true →
  f ∈ new_findings env request args st →
  fd_title f = sa_title finding →
  draft_get (fd_affected_settings f) = sa_affected_settings finding →
  unique_keys (sa_affected_settings finding) = true →
  ∃ resp st',
    execute_remediation env request st = (Return resp, st') ∧
    success resp = true ∧
    finding_resolved resp = false ∧
    message resp = "Remediation executed successfully" ∧
    is_Some (new_configuration_id resp).
Proof.
  intros Hl Hv Ha Hs Hx Hin Ht He Hu.
  rewrite (execute_remediation_rescanned env _ _ _ _ _ Hl Hv Ha Hs Hx).
  assert (existsb (same_finding finding) (new_findings env request args st) = true)
    as Hex.
  { apply existsb_exists. exists f. split; [by apply list_elem_of_In|].
    unfold same_finding. rewrite Ht, He, String.eqb_refl. simpl.
    by apply py_eq_refl. }
  eexists _, _. split; [done|]. simpl. rewrite Hex. simpl.
  split; [done|]. split; [done|]. split; [done|]. by eexists.
Qed.

(** [py_eq], the comparison the handler runs, decides Python's [==]. *)
Lemma py_eq_list_nil_cons (y : pyval) (ys : list pyval) :
  py_eq (PList []) (PList (y :: ys)) = false.
Proof. reflexivity. Qed.

Lemma py_eq_list_cons_nil (x : pyval) (xs : list pyval) :
  py_eq (PList (x :: xs)) (PList []) = false.
Proof. reflexivity. Qed.

Lemma py_equal_list_inv (xs ys : list pyval) :
  py_equal (PList xs) (PList ys) → Forall2 py_equal xs ys.
Proof. intros E. inversion E as [|a b n Ha Hb| | |]; [discriminate Ha|done]. Qed.

Lemma py_equal_dict_inv (kvs kvs' : list (string * pyval)) :
  py_equal (PDict kvs) (PDict kvs') →
  length kvs = length kvs' ∧
  Forall (λ kv, ∃ v', dict_lookup kv.1 kvs' = Some v' ∧ py_equal kv.2 v') kvs.
Proof. intros E. inversion E as [|a b n Ha Hb| | |]; [discriminate Ha|done]. Qed.

Lemma py_eq_number (a b : pyval) (n m : Z) :
  py_number a = Some n → py_number b = Some m →
  py_eq a b = true ↔ n = m.
Proof.
  destruct a as [|x|x| | |], b as [|y|y| | |]; simpl; intros [= <-] [= <-].
  - destruct x, y; simpl; split; (done || lia).
  - rewrite Z.eqb_eq. done.
  - rewrite Z.eqb_eq. done.
  - rewrite Z.eqb_eq. done.
Qed.

Lemma py_eq_not_number (a b : pyval) :
  py_number a = None → is_Some (py_number b) → py_eq a b = false.
Proof. destruct a, b; simpl; (done || by intros ? [? ?]). Qed.

Lemma py_eq_number_not (a b : pyval) :
  is_Some (py_number a) → py_number b = None → py_eq a b = false.
Proof. destruct a, b; simpl; (done || by intros [? ?] ?). Qed.

Lemma py_eq_py_equal (a b : pyval) : py_eq a b = true ↔ py_equal a b.
Proof.
  revert b.
  induction a as [|x|n|s|xs IH|kvs IH] using pyval_nested_ind; intros b.
  - split.
    + destruct b; try done. intros _. constructor.
    + intros E. inversion E as [|a' b' n Ha Hb| | |]; [done|discriminate Ha].
  - split.
    + intros E. destruct (py_number b) as [m|] eqn:Hb.
      * apply (py_equal_number _ _ (if x then 1 else 0)); [done|].
        rewrite Hb. f_equal. symmetry.
        by apply (py_eq_number (PBool x) b _ m).
      * rewrite py_eq_number_not in E; [done|by eexists|done].
    + intros E. inversion E as [|a' b' n Ha Hb| | |]; subst.
      by apply (py_eq_number (PBool x) b n n).
  - split.
    + intros E. destruct (py_number b) as [m|] eqn:Hb.
      * apply (py_equal_number _ _ n); [done|].
        rewrite Hb. f_equal. symmetry.
        by apply (py_eq_number (PInt n) b _ m).
      * rewrite py_eq_number_not in E; [done|by eexists|done].
    + intros E. inversion E as [|a' b' m Ha Hb| | |]; subst.
      by apply (py_eq_number (PInt n) b m m).
  - split.
    + destruct b as [| | |t| |]; try done. simpl.
      intros ->%String.eqb_eq. constructor.
    + intros E. inversion E as [|a' b' m Ha Hb|s'| |]; subst;
        [discriminate Ha|]. apply String.eqb_refl.
  - destruct b as [| | | |ys|];
      try (split; [done|intros E; inversion E as [|a' b' m Ha Hb| | |];
                        discriminate Ha]).
    revert ys. induction IH as [|x xs Hx _ IHxs]; intros [|y ys].
    + split; [intros _; by repeat constructor|done].
    + rewrite py_eq_list_nil_cons. split; [done|].
      intros E%py_equal_list_inv. inversion E.
    + rewrite py_eq_list_cons_nil. split; [done|].
      intros E%py_equal_list_inv. inversion E.
    + rewrite py_eq_list_cons, andb_true_iff, Hx, IHxs. split.
      * intros [Exy E%py_equal_list_inv]. constructor. by constructor.
      * intros E%py_equal_list_inv. inversion E; subst.
        split; [done|by constructor].
  - destruct b as [| | | | |kvs'];
      try (split; [done|intros E; inversion E as [|a' b' m Ha Hb| | |];
                        discriminate Ha]).
    rewrite py_eq_dict, andb_true_iff, Nat.eqb_eq.
    assert (forallb (λ kv, match dict_lookup kv.1 kvs' with
                           | Some v' => py_eq kv.2 v'
                           | None => false
                           end) kvs = true ↔
            Forall (λ kv, ∃ v', dict_lookup kv.1 kvs' = Some v' ∧
                                py_equal kv.2 v') kvs) as ->.
    { induction IH as [|kv kvs Hkv _ IHkvs]; simpl.
      - split; [by constructor|done].
      - rewrite andb_true_iff, IHkvs, Forall_cons.
        assert (match dict_lookup kv.1 kvs' with
                | Some v' => py_eq kv.2 v'
                | None => false
                end = true ↔
                ∃ v', dict_lookup kv.1 kvs' = Some v' ∧ py_equal kv.2 v') as ->;
          [|done].
        destruct (dict_lookup kv.1 kvs') as [v'|].
        + rewrite Hkv. split; [by eexists|]. by intros (? & [= ->] & ?).
        + split; [done|]. by intros (? & ? & ?). }
    split.
    + intros [Hlen Hall]. by constructor.
    + by intros E%py_equal_dict_inv.
Qed.

(** A new finding matches the original one exactly when it has its title
    and affected settings equal ([==]) to its affected settings. *)
Lemma same_finding_spec finding (f : FindingDraft) :
  same_finding finding f = true ↔
  fd_title f = sa_title finding ∧
  py_equal (default PNone (fd_affected_settings f)) (sa_affected_settings finding).
Proof.
  unfold same_finding. rewrite andb_true_iff, String.eqb_eq, py_eq_py_equal.
  by destruct (fd_affected_settings f).
Qed.

(** C3: when a rescan is asked for, the command succeeds and the scoped
    extraction succeeds, the handler returns a response whose
    [finding_resolved] is true exactly when no finding of the new analysis
    has both the title of the original finding and affected settings equal
    to its affected settings, by Python's [==] ([f.get("affected_settings")]
    is the key's value, or [None] without the key).  So new findings that
    share the title but differ in their affected settings leave it true,
    and one that has the title and the very same affected settings makes
    it false. *)
Theorem finding_resolved_iff_no_match request finding config args st :
  passes_lookup (st_db st) request finding config →
  passes_validation request args →
  auto_rescan request = true →
  gr_success (command_result env args st) = true →
  er_success (rescan_result env request args st) = true →
  ∃ resp st',
    execute_remediation env request st = (Return resp, st') ∧
    (finding_resolved resp = true ↔
       ∀ f, f ∈ new_findings env request args st →
         ¬ (fd_title f = sa_title finding ∧
            py_equal (default PNone (fd_affected_settings f))
                     (sa_affected_settings finding))) ∧
    ((∀ f, f ∈ new_findings env request args st →
        fd_title f = sa_title finding →
        ¬ py_equal (default PNone (fd_affected_settings f))
                   (sa_affected_settings finding)) →
     finding_resolved resp = true) ∧
    (∀ f, f ∈ new_findings env request args st →
       fd_title f = sa_title finding →
       default PNone (fd_affected_settings f) = sa_affected_settings finding →
       unique_keys (sa_affected_settings finding) = true →
       finding_resolved resp = false).
Proof.
  intros Hl Hv Ha Hs Hx.
  rewrite (execute_remediation_rescanned env _ _ _ _ _ Hl Hv Ha Hs Hx).
  eexists _, _. split; [done|]. simpl.
  assert (negb (existsb (same_finding finding) (new_findings env request args st))
            = true ↔
          ∀ f, f ∈ new_findings env request args st →
            ¬ (fd_title f = sa_title finding ∧
               py_equal (default PNone (fd_affected_settings f))
                        (sa_affected_settings finding))) as Hiff.
  { rewrite negb_true_iff. split.
    - intros Hn f Hin Hm. apply same_finding_spec in Hm.
      assert (existsb (same_finding finding) (new_findings env request args st)
                = true) as Hex; [|congruence].
      apply existsb_exists. exists f. split; [by apply list_elem_of_In|done].
    - intros Hall. apply not_true_is_false. intros Hex.
      apply existsb_exists in Hex as (f & Hin & Hm).
      apply same_finding_spec in Hm. apply (Hall f); [by apply list_elem_of_In|done]. }
  split; [exact Hiff|]. split.
  - intros Hd. apply Hiff. intros f Hin [Ht He]. by apply (Hd f Hin Ht).
  - intros f Hin Ht He Hu. apply not_true_is_false. intros Hr.
    apply (proj1 Hiff Hr f Hin). split; [done|].
    rewrite He. apply py_eq_py_equal. by apply py_eq_refl.
Qed.

(** ** Line 40 of [gam.py] *)

Lemma failed_config_types_sublist (types : list CT) (data : dict) :
  sublist (failed_config_types types data) types.
Proof.
  unfold failed_config_types. induction types as [|t types IH]; simpl.
  - constructor.
  - destruct (negb (dict_contains (ct_value t) data)); by constructor.
Qed.

Lemma failed_config_types_filter (types : list CT) (data : dict) :
  failed_config_types types data =
    filter (λ t, ct_value t ∉ dict_keys data) types.
Proof.
  unfold failed_config_types. induction types as [|t types IH]; [done|].
  simpl. rewrite filter_cons, IH.
  destruct (dict_contains (ct_value t) data) eqn:Hc; simpl.
  - apply dict_contains_keys in Hc. by rewrite decide_False by tauto.
  - rewrite decide_True; [done|]. rewrite <- dict_contains_keys. congruence.
Qed.

(** X15: [failed_types] is the request's list of types with exactly the
    types whose value is a key of the data taken out: the order of the
    request is kept, a type requested twice and missing is listed twice,
    and no type that succeeded is listed.  The field is null when nothing
    is left. *)
Theorem failed_types_follow_the_request (request : GAMExtractRequest CT) st :
  er_success (extraction_result env request st) = true ∨
    er_data (extraction_result env request st) ≠ [] →
  let failed :=
    filter (λ t, ct_value t ∉ dict_keys (er_data (extraction_result env request st)))
           (config_types request) in
  ∃ resp st',
    extract_gam_config env request st = (Return resp, st') ∧
    failed_types resp = match failed with [] => None | _ :: _ => Some failed end.
Proof.
  intros Hok. simpl. rewrite (extract_gam_config_stored env _ _ Hok).
  eexists _, _. split; [done|]. simpl.
  by rewrite failed_config_types_filter.
Qed.

(** ** Lines 39-44 and line 43 *)

Lemma filter_fmap_snd {A B : Type} (P : B → Prop) `{∀ x, Decision (P x)}
    (l : list (A * B)) :
  filter P l.*2 = (filter (λ kr, P kr.2) l).*2.
Proof.
  induction l as [|[k r] l IH]; [done|].
  rewrite fmap_cons, !filter_cons. cbn [snd].
  destruct (decide (P r)); [rewrite fmap_cons; cbn [snd]|]; by rewrite IH.
Qed.

(** X17: the score before in a successful response is the score of the
    findings attached to the configuration of the remediated finding, each
    row counted once, the finding itself among them: the handler passes
    the severities of a duplicate-free enumeration of exactly the rows with
    that configuration id. *)
Theorem score_before_counts_the_finding request st resp st' :
  execute_remediation env request st = (Return resp, st') →
  success resp = true →
  ∃ finding rows,
    security_analyses (st_db st) !! finding_id request = Some finding ∧
    NoDup rows.*1 ∧
    (∀ k r, (k, r) ∈ rows ↔
       security_analyses (st_db st) !! k = Some r ∧
       sa_configuration_id r = sa_configuration_id finding) ∧
    (finding_id request, finding) ∈ rows ∧
    security_score_before resp =
      Some (get_security_score env (sa_severity <$> rows.*2)).
Proof.
  intros Hrun Hsucc.
  destruct (execute_remediation_cases request st)
    as [(e0 & E & _) | (f & c & a & [Hf Hc] & Hv & Hcase)];
    [rewrite E in Hrun; done|].
  set (rows := filter (λ kr : Z * SecurityAnalysis,
                         sa_configuration_id kr.2 = sa_configuration_id f)
                      (map_to_list (security_analyses (st_db st)))).
  assert (∀ k r, (k, r) ∈ rows ↔
            security_analyses (st_db st) !! k = Some r ∧
            sa_configuration_id r = sa_configuration_id f) as Hrows.
  { intros k r. unfold rows. rewrite list_elem_of_filter, elem_of_map_to_list.
    simpl. tauto. }
  exists f, rows. split; [done|]. split.
  { apply (sublist_NoDup _ _
             (NoDup_fst_map_to_list (security_analyses (st_db st)))).
    unfold rows. apply fmap_sublist, sublist_filter. }
  split; [done|]. split; [by apply Hrows|].
  assert (score_before env st f =
            get_security_score env (sa_severity <$> rows.*2)) as Hscore.
  { unfold score_before, rows.
    by rewrite (filter_fmap_snd
                  (λ a, sa_configuration_id a = sa_configuration_id f)). }
  destruct Hcase as [[Hs E]|[(Hs & Ha & E)|[(Hs & Ha & Hx & E)|(Hs & Ha & Hx & E)]]];
    rewrite E in Hrun; injection Hrun as <- <-; simpl in *;
    [done|by rewrite Hscore..].
Qed.

(** X18: a request to save a template is not checked for a name.  With
    [save_as_template] true the stored configuration is a template whose
    name is [template_name] as given, the keys of the data playing no part;
    when no name was given the handler still answers with success and the
    row is stored with a null name. *)
Theorem template_name_is_not_checked (request : GAMExtractRequest CT) st :
  er_success (extraction_result env request st) = true ∨
    er_data (extraction_result env request st) ≠ [] →
  save_as_template request = true →
  ∃ resp st' cfg,
    extract_gam_config env request st = (Return resp, st') ∧
    x_success resp = true ∧
    configurations (st_db st') !! x_configuration_id resp = Some cfg ∧
    cfg_is_template cfg = true ∧
    cfg_name cfg = template_name request ∧
    (template_name request = None → cfg_name cfg = None).
Proof.
  intros Hok Ht. rewrite (extract_gam_config_stored env _ _ Hok).
  eexists _, _, _. split; [done|]. simpl. split; [done|].
  split; [apply lookup_insert_eq|]. simpl. rewrite Ht. by repeat split.
Qed.

End MoreProperties.

(** * The further properties on the sample deployment *)

(** X2 on the scenario: the response follows the one [update user] command. *)
Lemma remediation_response_follows_one_command_witness :
  ∃ finding config,
    passes_lookup sample_db enforce_request finding config ∧
    passes_validation enforce_request enforce_command.
Proof.
  edestruct (remediation_response_follows_one_command (sample_env true true)
               enforce_request sample_state)
    as (finding & config & args & Hl & Hv & _).
  { vm_compute. reflexivity. }
  exists finding, config. split; [exact Hl|].
  inversion Hv as [? d u Ha Hp Hu Ht | ? d u c Ha Hp Hu Htu Hc Htc].
  - injection Hp as <-. injection Hu as <-. exact enforce_passes_validation.
  - discriminate Ha.
Defined.

(** X3 on the scenario without a rescan. *)
Lemma no_rescan_unless_requested_witness :
  ∃ resp st',
    execute_remediation (sample_env true true) quiet_request sample_state
      = (Return resp, st') ∧
    success resp = true ∧
    message resp = "Remediation executed successfully" ∧
    security_score_before resp =
      Some (score_before (sample_env true true) sample_state sample_finding) ∧
    new_configuration_id resp = None ∧
    security_score_after resp = None ∧
    finding_resolved resp = false ∧
    st_db st' = st_db sample_state ∧
    st_trace st' = (st_trace sample_state ++ [EvRunGam enforce_command])%list.
Proof.
  apply (no_rescan_unless_requested (sample_env true true) quiet_request
           sample_finding sample_config enforce_command sample_state).
  - split; reflexivity.
  - eapply valid_enforce_2fa; reflexivity.
  - reflexivity.
  - reflexivity.
Defined.

(** X4 on a request whose [user_email] is the empty string. *)
Lemma falsy_parameter_is_rejected_witness :
  execute_remediation (sample_env true true) blank_request sample_state =
    (Raise (HTTPException 400 (missing_parameter_detail "enforce_2fa")), sample_state).
Proof.
  apply (falsy_parameter_is_rejected (sample_env true true) blank_request
           [("user_email", PStr "")] sample_finding sample_config sample_state).
  - split; reflexivity.
  - reflexivity.
  - left. split; reflexivity.
Defined.

(** X5 on the scenario. *)
Lemma remediation_response_is_coherent_witness :
  ∃ resp,
    (execute_remediation (sample_env true true) enforce_request sample_state).1
      = Return resp ∧
    (finding_resolved resp = true → is_Some (new_configuration_id resp)).
Proof.
  eexists. split; [vm_compute; reflexivity|].
  eapply (remediation_response_is_coherent (sample_env true true)
            enforce_request sample_state).
  vm_compute. reflexivity.
Defined.

(** X7 on the scenario with a GAM that changes nothing: the finding comes
    back and is stored with the new configuration. *)
Lemma rescan_findings_are_stored_witness :
  size (security_analyses
          (st_db (execute_remediation idle_env enforce_request sample_state).2))
    = (size (security_analyses sample_db) +
       length (new_findings idle_env enforce_request enforce_command sample_state))%nat.
Proof.
  apply (rescan_findings_are_stored idle_env enforce_request
           sample_finding sample_config enforce_command sample_state).
  - split; reflexivity.
  - eapply valid_enforce_2fa; reflexivity.
  - reflexivity.
  - reflexivity.
  - reflexivity.
Defined.

(** X8 on a store with a finding whose configuration is gone. *)
Lemma missing_configuration_is_404_witness :
  execute_remediation (sample_env true true)
    {| finding_id := 8; action_id := "no_such_action"; parameters := None;
       auto_rescan := true |} dangling_state =
  (Raise (HTTPException 404 "Configuration not found"), dangling_state).
Proof.
  eapply (missing_configuration_is_404 (sample_env true true)).
  - reflexivity.
  - reflexivity.
Defined.

(** X11 on an extraction of the users: the "No 2FA" finding it stores is a
    target for [execute_remediation]. *)
Lemma extracted_findings_pass_lookup_witness :
  ∃ cfg,
    configurations
      (st_db (extract_gam_config (sample_env true true)
                user_extract_request sample_state).2) !! 4 = Some cfg ∧
    cfg_config_data cfg =
      er_data (extraction_result (sample_env true true)
                 user_extract_request sample_state).
Proof.
  edestruct (extracted_findings_pass_lookup (sample_env true true)
               user_extract_request sample_state)
    as (cfg & _ & Hcfg & Hdata & _).
  { left. reflexivity. }
  exists cfg. split; [exact Hcfg|exact Hdata].
Defined.

(** X12 on the partial extraction of users and groups. *)
Lemma stored_errors_match_response_witness :
  ∃ resp st' cfg,
    extract_gam_config (sample_env true true) sample_extract_request sample_state
      = (Return resp, st') ∧
    configurations (st_db st') !! x_configuration_id resp = Some cfg ∧
    (cfg_extraction_errors cfg = None ↔ x_errors resp = None).
Proof.
  edestruct (stored_errors_match_response (sample_env true true)
               sample_extract_request sample_state)
    as (resp & st' & cfg & E & L & I & _).
  { left. reflexivity. }
  exists resp, st', cfg. split; [exact E|]. split; [exact L|exact I].
Defined.

(** X14 on the scenario with a GAM that changes nothing. *)
Lemma unchanged_finding_is_not_resolved_witness :
  ∃ resp st',
    execute_remediation idle_env enforce_request sample_state = (Return resp, st') ∧
    success resp = true ∧
    finding_resolved resp = false ∧
    message resp = "Remediation executed successfully" ∧
    is_Some (new_configuration_id resp).
Proof.
  eapply (unchanged_finding_is_not_resolved idle_env enforce_request
            sample_finding sample_config enforce_command sample_state).
  - split; reflexivity.
  - eapply valid_enforce_2fa; reflexivity.
  - reflexivity.
  - reflexivity.
  - reflexivity.
  - vm_compute. constructor.
  - reflexivity.
  - reflexivity.
  - reflexivity.
Defined.

(** X18 on a template request without a name. *)
Lemma template_name_is_not_checked_witness :
  ∃ resp st' cfg,
    extract_gam_config (sample_env true true) nameless_template_request sample_state
      = (Return resp, st') ∧
    x_success resp = true ∧
    configurations (st_db st') !! x_configuration_id resp = Some cfg ∧
    cfg_is_template cfg = true ∧
    cfg_name cfg = None.
Proof.
  edestruct (template_name_is_not_checked (sample_env true true)
               nameless_template_request sample_state)
    as (resp & st' & cfg & E & S & L & T & _ & N).
  { left. reflexivity. }
  { reflexivity. }
  exists resp, st', cfg. repeat split; try assumption.
  apply N. reflexivity.
Defined.

(** * The revised properties on the sample deployment *)

(** C2 on the sample stores: an absent finding, a finding whose
    configuration is gone, an unknown action on Finding 7. *)
Lemma lookup_and_action_failures_abort_witness :
  execute_remediation (sample_env true true) (stray_request None) sample_state
    = (Raise (HTTPException 404 "Security finding not found"), sample_state) ∧
  execute_remediation (sample_env true true) dangling_request dangling_state
    = (Raise (HTTPException 404 "Configuration not found"), dangling_state) ∧
  execute_remediation (sample_env true true)
    (sample_request "delete_user" (Some []) true) sample_state
    = (Raise (HTTPException 400 "Unknown action_id: delete_user"), sample_state).
Proof.
  split; [|split].
  - apply (lookup_and_action_failures_abort (sample_env true true)
             (stray_request None) sample_state).
    + unfold sql_integer. simpl. lia.
    + reflexivity.
  - eapply (lookup_and_action_failures_abort (sample_env true true)
              dangling_request dangling_state).
    + reflexivity.
    + reflexivity.
  - eapply (lookup_and_action_failures_abort (sample_env true true)
              (sample_request "delete_user" (Some []) true) sample_state).
    + split; reflexivity.
    + intros [E|E]; discriminate E.
Defined.

(** C2, as stated, fails for an unknown action on a finding whose
    configuration is missing: the answer is the 404 of the second lookup,
    not the 400 of the unknown action. *)
Lemma unknown_action_missing_configuration_is_404 :
  ¬ known_action (action_id dangling_request) ∧
  is_Some (security_analyses dangling_db !! finding_id dangling_request) ∧
  execute_remediation (sample_env true true) dangling_request dangling_state
    = (Raise (HTTPException 404 "Configuration not found"), dangling_state) ∧
  ∀ detail st',
    execute_remediation (sample_env true true) dangling_request dangling_state
      ≠ (Raise (HTTPException 400 detail), st').
Proof.
  split; [intros [E|E]; discriminate E|].
  split; [by eexists|]. split; [reflexivity|].
  intros detail st' E. vm_compute in E. discriminate E.
Qed.

(** C3 on the scenario with a GAM that changes nothing: the rescan finds
    "No 2FA" for [a@x.com] again, and the comparison decides. *)
Lemma finding_resolved_iff_no_match_witness :
  ∃ resp st',
    execute_remediation idle_env enforce_request sample_state = (Return resp, st') ∧
    (finding_resolved resp = true ↔
       ∀ f, f ∈ new_findings idle_env enforce_request enforce_command sample_state →
         ¬ (fd_title f = sa_title sample_finding ∧
            py_equal (default PNone (fd_affected_settings f))
                     (sa_affected_settings sample_finding))) ∧
    ((∀ f, f ∈ new_findings idle_env enforce_request enforce_command sample_state →
        fd_title f = sa_title sample_finding →
        ¬ py_equal (default PNone (fd_affected_settings f))
                   (sa_affected_settings sample_finding)) →
     finding_resolved resp = true) ∧
    (∀ f, f ∈ new_findings idle_env enforce_request enforce_command sample_state →
       fd_title f = sa_title sample_finding →
       default PNone (fd_affected_settings f) = sa_affected_settings sample_finding →
       unique_keys (sa_affected_settings sample_finding) = true →
       finding_resolved resp = false).
Proof.
  apply (finding_resolved_iff_no_match idle_env enforce_request
           sample_finding sample_config enforce_command sample_state).
  - split; reflexivity.
  - eapply valid_enforce_2fa; reflexivity.
  - reflexivity.
  - reflexivity.
  - reflexivity.
Defined.

(** The two sides of the comparison on non-empty analyses: the finding that
    comes back unchanged is not resolved; a finding with the same title
    for another user leaves it resolved. *)
Example rescan_finds_the_same_finding :
  length (new_findings idle_env enforce_request enforce_command sample_state) = 1%nat ∧
  ∃ resp st',
    execute_remediation idle_env enforce_request sample_state = (Return resp, st') ∧
    finding_resolved resp = false.
Proof. split; [reflexivity|]. eexists _, _. split; [vm_compute; reflexivity|done]. Qed.

Example rescan_finds_another_user :
  (∃ f, new_findings other_user_env enforce_request enforce_command sample_state = [f] ∧
        fd_title f = sa_title sample_finding ∧
        fd_affected_settings f = Some (PDict [("user", PStr "b@x.com")])) ∧
  ∃ resp st',
    execute_remediation other_user_env enforce_request sample_state
      = (Return resp, st') ∧
    finding_resolved resp = true.
Proof.
  split; [eexists; split; [vm_compute; reflexivity|by split]|].
  eexists _, _. split; [vm_compute; reflexivity|done].
Qed.

(** X1 on a request for a finding the store does not hold. *)
Lemma http_errors_have_no_effect_witness :
  sample_state = sample_state ∧
  ((404 = 404 ∧ "Security finding not found" = "Security finding not found") ∨
   (404 = 404 ∧ "Security finding not found" = "Configuration not found") ∨
   (404 = 400 ∧ "Security finding not found" = "user_email parameter required") ∨
   (404 = 400 ∧
    "Security finding not found" = "user and client_id parameters required") ∨
   (404 = 400 ∧
    "Security finding not found" =
      "Unknown action_id: " +:+ action_id (stray_request None))).
Proof.
  apply (http_errors_have_no_effect (sample_env true true)
           (stray_request None) sample_state).
  reflexivity.
Defined.

(** X15 on a request that names the groups twice: both are listed, in
    place, and the users, which were extracted, are not. *)
Lemma failed_types_follow_the_request_witness :
  ∃ resp st',
    extract_gam_config (sample_env true true) repeated_extract_request sample_state
      = (Return resp, st') ∧
    failed_types resp = Some [ST_GROUP; ST_GROUP].
Proof.
  edestruct (failed_types_follow_the_request (sample_env true true)
               repeated_extract_request sample_state)
    as (resp & st' & E & F).
  { left. reflexivity. }
  exists resp, st'. split; [exact E|]. rewrite F. reflexivity.
Defined.

(** X17 on a store with two findings of the configuration: both count. *)
Lemma score_before_counts_the_finding_witness :
  ∃ resp (rows : list (Z * SecurityAnalysis)),
    (execute_remediation (sample_env true true) enforce_request two_findings_state).1
      = Return resp ∧
    length rows = 2%nat ∧
    security_score_before resp = Some (sample_score (sa_severity <$> rows.*2)) ∧
    security_score_before resp = Some 50.
Proof.
  edestruct (score_before_counts_the_finding (sample_env true true)
               enforce_request two_findings_state)
    as (finding & rows & Hf & Hnd & Hrows & Hin & Hscore).
  { vm_compute. reflexivity. }
  { reflexivity. }
  eexists. exists rows. split; [vm_compute; reflexivity|].
  split; [|split; [exact Hscore|reflexivity]].
  injection Hf as <-.
  assert ((7, sample_finding) ∈ rows) as H7 by (apply Hrows; split; reflexivity).
  assert ((9, sample_finding) ∈ rows) as H9 by (apply Hrows; split; reflexivity).
  assert (∀ kr, kr ∈ rows → kr = (7, sample_finding) ∨ kr = (9, sample_finding))
    as Hall.
  { intros [k r] Hkr. apply Hrows in Hkr as [Hk _].
    unfold two_findings_state, two_findings_db in Hk. simpl in Hk.
    destruct (decide (k = 9)) as [->|N9].
    - rewrite lookup_insert_eq in Hk. injection Hk as <-. by right.
    - rewrite lookup_insert_ne in Hk by done.
      destruct (decide (k = 7)) as [->|N7].
      + rewrite lookup_singleton_eq in Hk. injection Hk as <-. by left.
      + rewrite lookup_singleton_ne in Hk by done. discriminate Hk. }
  apply NoDup_fmap_1 in Hnd as Hnd'.
  assert (rows ≡ₚ [(7, sample_finding); (9, sample_finding)]) as Hp.
  { apply NoDup_Permutation; [done| |].
    - repeat constructor; [|apply not_elem_of_nil..].
      intros Hx. apply list_elem_of_singleton in Hx. discriminate Hx.
    - intros kr. split.
      + intros Hkr. destruct (Hall kr Hkr) as [->| ->].
        * apply elem_of_cons. by left.
        * apply elem_of_cons. right. apply elem_of_cons. by left.
      + intros Hkr. apply elem_of_cons in Hkr as [->|Hkr]; [done|].
        apply elem_of_cons in Hkr as [->|Hkr]; [done|].
        by apply elem_of_nil in Hkr. }
  by rewrite Hp.
Defined.
